(** * GKE VPA recommendations: the metrics exporter

    A shallow embedding of [metrics-exporter/main.py]: namespace discovery
    ([get_namespaces]), the metric fetcher ([get_gke_metrics]), the row sink
    ([write_to_bigquery]), the per-namespace orchestrator ([run_pipeline])
    and the driver under [__main__].

    Conventions of the embedding.
    - Python [str] is [string]; the label bags of a time series (protobuf
      map containers read with [m[key]]) are [gmap string _], a missing key
      reading as the default of the value type: the empty string, or an
      empty [Value].
    - The monitoring and warehouse clients are an oracle ([backend]) whose
      answers may depend on everything the program did so far (the trace).
    - [get_gke_metrics], [get_namespaces] and [write_to_bigquery] are the
      functions from the point where the client and the request messages
      exist (lines 67, 149 and 124).  Building those, which happens outside
      every [try] and may raise, is [construction]; the functions entered
      from their first line are in [Entry].
    - The order in which a [set] of [str] is listed depends on the hash
      seed of the process: it is a parameter of the world.
    - Exceptions are the subclasses of Python's [Exception]; a computation
      is a function from a call frame (trace and local variable) to a value
      or a raised exception, and the frame as the computation left it.
    - IEEE doubles are [spec_float] at precision 53, exponent bound 1024. *)

From Stdlib Require Import ZArith String Ascii List Lia.
From Stdlib Require Import Floats.SpecFloat.
From stdpp Require Import base gmap strings list.

Local Open Scope string_scope.

(** ** Python strings *)

Module PyStr.

(** [needle in hay] on [str]: some suffix of [hay] starts with [needle]. *)
Fixpoint str_in (needle hay : string) : bool :=
  if String.prefix needle hay then true
  else match hay with
       | EmptyString => false
       | String _ rest => str_in needle rest
       end.

(** One decimal digit, as a character. *)
Definition digit_char (n : nat) : ascii := ascii_of_nat (48 + n mod 10).

(** The [width] low decimal digits of [n], most significant first: the
    zero-padded fields of [strftime]. *)
Fixpoint zero_pad (width n : nat) : string :=
  match width with
  | O => EmptyString
  | S w => zero_pad w (n / 10) +:+ String (digit_char n) EmptyString
  end.

(** Number of decimal digits of [n], by repeated division. *)
Fixpoint digits_upto (fuel n : nat) : nat :=
  match fuel with
  | O => 1
  | S fuel' => if (n <? 10)%nat then 1 else S (digits_upto fuel' (n / 10))
  end.

Definition digits (n : nat) : nat := digits_upto n n.

(** [n] in decimal on at least [width] digits, zero-padded on the left and
    never cut: [%02d], [%06d], and [%d] at width 1. *)
Definition pad (width n : nat) : string := zero_pad (Nat.max width (digits n)) n.

(** ASCII lower-casing, used only to state the case-insensitive reading of
    the classification. *)
Definition lower_ascii (c : ascii) : ascii :=
  let n := nat_of_ascii c in
  if (65 <=? n)%nat && (n <=? 90)%nat then ascii_of_nat (n + 32) else c.

Fixpoint lower (s : string) : string :=
  match s with
  | EmptyString => EmptyString
  | String c rest => String (lower_ascii c) (lower rest)
  end.

(** The double quote, as a character and as a one-character string. *)
Definition dquote_char : ascii := "034"%char.
Definition dquote : string := String dquote_char EmptyString.

(** Number of occurrences of a character. *)
Fixpoint count_char (c : ascii) (s : string) : nat :=
  match s with
  | EmptyString => O
  | String d rest => (if Ascii.eqb c d then 1 else 0) + count_char c rest
  end.

End PyStr.
Export PyStr.

(** ** Dates and numbers *)

(** [datetime] fields, as [strftime] reads them. *)
Record datetime := {
  year : nat; month : nat; day : nat;
  hour : nat; minute : nat; second : nat;
  microsecond : nat
}.

(** [dt.strftime('%Y-%m-%d %H:%M:%S')] as the C library prints it: the
    year without padding (999 prints on three characters), the other
    fields on two digits. *)
Definition strftime_seconds (dt : datetime) : string :=
  pad 1 (year dt) +:+ "-" +:+ pad 2 (month dt) +:+ "-" +:+
  pad 2 (day dt) +:+ " " +:+ pad 2 (hour dt) +:+ ":" +:+
  pad 2 (minute dt) +:+ ":" +:+ pad 2 (second dt).

(** [dt.strftime('%Y-%m-%d %H:%M:%S.%f')]: [%f] is the microsecond on six
    digits. *)
Definition strftime_micros (dt : datetime) : string :=
  strftime_seconds dt +:+ "." +:+ pad 6 (microsecond dt).

Abbreviation float := spec_float.

Definition float_zero : float := S754_zero false.

(** [bool(x)] on a float: false exactly for the two zeros. *)
Definition float_truthy (x : float) : bool :=
  match x with
  | S754_zero _ => false
  | _ => true
  end.

(** [float(n)] on an [int]: the nearest double, ties to even. *)
Definition float_of_int (n : Z) : float := binary_normalize 53 1024 n 0 false.

(** ** Backend data *)

(** [TypedValue]: a oneof; reading a member that is not the set one gives
    that member's default. *)
Inductive typed_value :=
| BoolValue (b : bool)
| Int64Value (n : Z)
| DoubleValue (d : float)
| StringValue (s : string)
| DistributionValue
| ValueNotSet.

Definition double_value (v : typed_value) : float :=
  match v with DoubleValue d => d | _ => float_zero end.

Definition int64_value (v : typed_value) : Z :=
  match v with Int64Value n => n | _ => 0%Z end.

(** A [google.protobuf.Value] of the metadata bag, read through
    [.string_value]. *)
Inductive pb_value :=
| PbString (s : string)
| PbOther.

Definition string_value (v : pb_value) : string :=
  match v with PbString s => s | PbOther => EmptyString end.

(** One point of a series whose start time is set:
    [point.interval.start_time], [point.value]. *)
Record point := {
  interval_start_time : datetime;
  value : typed_value
}.

(** A point as the backend sends it: the start time may be unset, and then
    [point.interval.start_time] reads as [None]. *)
Inductive raw_point :=
| Timed (p : point)
| Untimed (v : typed_value).

(** A Time Series Result with its three label bags:
    [result.resource.labels], [result.metadata.system_labels.fields],
    [result.metric.labels], and [result.points]. *)
Record time_series := {
  resource_labels : gmap string string;
  metadata_fields : gmap string pb_value;
  metric_labels : gmap string string;
  points : list raw_point
}.

(** ** Canonical rows *)

Record point_entry := {
  metric_timestamp : string;
  metric_value : float
}.

Record row := {
  run_date_ : string;
  metric_name_ : string;
  project_id : string;
  location : string;
  cluster_name : string;
  namespace_name : string;
  controller_name : string;
  controller_type : string;
  container_name : string;
  points_array : list point_entry
}.

(** ** Requests *)

Record time_interval := {
  start_seconds : Z; start_nanos : Z;
  end_seconds : Z; end_nanos : Z
}.

Record aggregation := {
  alignment_period_seconds : Z;
  per_series_aligner : Z;
  cross_series_reducer : Z;
  group_by_fields : list string
}.

Definition ALIGN_RATE : Z := 2.
Definition REDUCE_SUM : Z := 4.

Inductive series_view := FULL | HEADERS.

Record list_request := {
  name : string;
  filter : string;
  interval : time_interval;
  view : series_view;
  aggregation_ : aggregation
}.

(** A Query Descriptor, one value of [config.MQL_QUERY]. *)
Record query := {
  metric : string;
  window : Z;
  seconds_between_points : Z;
  query_aligner : Z;
  query_reducer : Z;
  columns : list string
}.

(** ** Exceptions, results, events *)

(** One entry of the list [insert_rows_json] returns. *)
Record insert_error := {
  error_index : nat;
  error_details : list string
}.

Inductive exn :=
| GoogleAPICallError (detail : string)
| AttributeError (detail : string)
| InsertRowsException (errors : list insert_error)
| OtherException (detail : string).

Definition is_GoogleAPICallError (e : exn) : bool :=
  match e with GoogleAPICallError _ => true | _ => false end.

Inductive outcome (A : Type) :=
| Ok (a : A)
| Raise (e : exn).
Arguments Ok {A} a.
Arguments Raise {A} e.

Inductive log_level := INFO | ERROR.

(** The log lines of the program, one constructor per format string. *)
Inductive log_msg :=
| LogBuildingRow
| LogGoogleAPICallError (error : exn)
| LogUnexpectedError (error : exn)
| LogSuccessfullyWrote (n : nat) (table : string)
| LogInsertErrors (errors : list insert_error)
| LogRetrieving (metric_name namespace : string)
| LogUnavailableSkip (metric_name : string)
| LogRunCompleted
| LogNamespaceListEmpty.

Inductive event :=
| EvListTimeSeries (req : list_request)
| EvInsertRowsJson (table : string) (rows : list row)
| EvLog (level : log_level) (msg : log_msg).

(** What iterating the pager of [list_time_series] yields: the series, then
    possibly an exception from fetching a further page. *)
Record pager := {
  pager_items : list time_series;
  pager_error : option exn
}.

Inductive api_response :=
| CallRaises (e : exn)
| Returns (pg : pager).

Inductive insert_response :=
| InsertRaises (e : exn)
| InsertReturns (errors : list insert_error).

(** ** The world around the program *)

Record config := {
  PROJECT_ID : string;
  TABLE_ID : string;
  METRIC_WINDOW : Z;
  namespace_filter : string;
  MQL_QUERY : list (string * query)
}.

Record backend := {
  list_time_series : list event -> list_request -> api_response;
  insert_rows_json : list event -> string -> list row -> insert_response
}.

(** Module-level values fixed at import ([run_date], [seconds], [nanos]) and
    the two clock readings of [get_namespaces], in whole seconds. *)
Record startup := {
  run_date : datetime;
  seconds : Z;
  nanos : Z;
  discovery_clock_start : Z;
  discovery_clock_end : Z
}.

(** How the process lists a [set] of [str]: some rearrangement of its
    elements, fixed by the hash seed. *)
Record set_order := {
  listing : list string -> list string;
  listing_perm : forall l, listing l ≡ₚ l
}.

Record world := {
  cfg : config;
  env : backend;
  boot : startup;
  hash_order : set_order
}.

(** What building the clients and the request messages does, outside every
    [try]: [MetricServiceClient()], [TimeInterval({...})],
    [Aggregation({...})], [bigquery.Client()].  Each returns, or raises
    (no credentials, a field out of the range of its protobuf type). *)
Record construction := {
  new_metric_client : option exn;
  new_time_interval : time_interval -> option exn;
  new_aggregation : aggregation -> option exn;
  new_bigquery_client : option exn
}.

(** ** Computations *)

(** A call frame: the trace of external effects so far and the one local
    variable the function mutates. *)
Record frame (L : Type) := Frame {
  trace : list event;
  local : L
}.
Arguments Frame {L} trace local.
Arguments trace {L} f.
Arguments local {L} f.

Definition M (L A : Type) : Type := frame L -> outcome A * frame L.

Module Run.

Definition ret {L A} (a : A) : M L A := fun fr => (Ok a, fr).

Definition bind {L A B} (m : M L A) (k : A -> M L B) : M L B :=
  fun fr =>
    match m fr with
    | (Ok a, fr') => k a fr'
    | (Raise e, fr') => (Raise e, fr')
    end.

Definition raise {L A} (e : exn) : M L A := fun fr => (Raise e, fr).

(** A pure step that may raise. *)
Definition lift {L A} (r : outcome A) : M L A := fun fr => (r, fr).

Definition get_local {L} : M L L := fun fr => (Ok (local fr), fr).

Definition modify_local {L} (f : L -> L) : M L unit :=
  fun fr => (Ok tt, Frame (trace fr) (f (local fr))).

Definition emit {L} (ev : event) : M L unit :=
  fun fr => (Ok tt, Frame (trace fr ++ [ev]) (local fr)).

(** [try: body except Exception as error: handler error]: what [body] did
    to the frame before raising stays done. *)
Definition try_except {L A} (body : M L A) (handler : exn -> M L A) : M L A :=
  fun fr =>
    match body fr with
    | (Ok a, fr') => (Ok a, fr')
    | (Raise e, fr') => handler e fr'
    end.

(** [for x in xs: body x]. *)
Fixpoint for_each {L A} (xs : list A) (body : A -> M L unit) : M L unit :=
  match xs with
  | [] => ret tt
  | x :: rest => bind (body x) (fun _ => for_each rest body)
  end.

(** Calling a function: a fresh frame for the callee on the caller's
    trace; the caller's local is untouched. *)
Definition call {L L' A} (init : L') (body : M L' A) : M L A :=
  fun fr =>
    match body (Frame (trace fr) init) with
    | (r, fr') => (r, Frame (trace fr') (local fr))
    end.

End Run.
Import Run.

Declare Scope run_scope.
Delimit Scope run_scope with run.
Notation "'let!' x ':=' m 'in' k" := (bind m (fun x => k))
  (at level 10, x name, m at level 100, k at level 200) : run_scope.
Notation "'do!' m 'in' k" := (bind m (fun _ => k))
  (at level 10, m at level 100, k at level 200) : run_scope.

(** The same for the pure steps of row building. *)
Definition outcome_bind {A B} (r : outcome A) (k : A -> outcome B) : outcome B :=
  match r with
  | Ok a => k a
  | Raise e => Raise e
  end.

Declare Scope outcome_scope.
Delimit Scope outcome_scope with outcome.
Notation "'let!' x ':=' r 'in' k" := (outcome_bind r (fun x => k))
  (at level 10, x name, r at level 100, k at level 200) : outcome_scope.

(** [m[key]] on a protobuf map container of strings: the value, or the
    empty string when the key is missing. *)
Definition getitem (m : gmap string string) (key : string) : string :=
  default EmptyString (m !! key).

(** [m[key]] on the metadata fields: the value, or an empty [Value]. *)
Definition getitem_value (m : gmap string pb_value) (key : string)
  : pb_value :=
  default PbOther (m !! key).

(** ** Metric fetcher *)

Inductive branch := HpaBranch | VpaBranch | GenericBranch.

(** The test of lines 83 and 87. *)
Definition classify (metric_name : string) : branch :=
  if str_in "hpa" metric_name then HpaBranch
  else if str_in "vpa" metric_name then VpaBranch
  else GenericBranch.

(** Lines 83-94: [(controller_name, controller_type, container_name)]. *)
Definition identity_fields (metric_name : string) (result : time_series)
  : (string * string * string)%type :=
  let label := resource_labels result in
  let metadata := metadata_fields result in
  let metric_label := metric_labels result in
  if str_in "hpa" metric_name then
    let controller_name := getitem metric_label "targetref_name" in
    let controller_type := getitem metric_label "targetref_kind" in
    let container_name := getitem metric_label "container_name" in
    (controller_name, controller_type, container_name)
  else if str_in "vpa" metric_name then
    let controller_name := getitem label "controller_name" in
    let controller_type := getitem label "controller_kind" in
    let container_name := getitem metric_label "container_name" in
    (controller_name, controller_type, container_name)
  else
    let controller_name :=
      string_value (getitem_value metadata "top_level_controller_name") in
    let controller_type :=
      string_value (getitem_value metadata "top_level_controller_type") in
    let container_name := getitem label "container_name" in
    (controller_name, controller_type, container_name).

(** Lines 110-111: [double_value or float(int64_value)]. *)
Definition point_value (v : typed_value) : float :=
  if float_truthy (double_value v) then double_value v
  else float_of_int (int64_value v).

(** Lines 108-111, for a point whose start time is set. *)
Definition build_point (p : point) : point_entry :=
  {| metric_timestamp := strftime_micros (interval_start_time p);
     metric_value := point_value (value p) |}.

(** What [None.strftime(...)] raises. *)
Definition no_strftime : exn :=
  AttributeError "'NoneType' object has no attribute 'strftime'".

(** Lines 106-112, the inner loop: it raises at the first point whose
    start time is unset. *)
Fixpoint build_points (ps : list raw_point) (acc : list point_entry)
  : outcome (list point_entry) :=
  match ps with
  | [] => Ok acc
  | Timed p :: rest => build_points rest (acc ++ [build_point p])
  | Untimed _ :: rest => Raise no_strftime
  end.

(** Lines 79-113: the row of one series. *)
Definition build_row (st : startup) (metric_name : string)
    (result : time_series) : outcome row :=
  let label := resource_labels result in
  let ident := identity_fields metric_name result in
  (let! points := build_points (points result) [] in
   Ok {| run_date_ := strftime_seconds (run_date st);
         metric_name_ := metric_name;
         project_id := getitem label "project_id";
         location := getitem label "location";
         cluster_name := getitem label "cluster_name";
         namespace_name := getitem label "namespace_name";
         controller_name := ident.1.1;
         controller_type := ident.1.2;
         container_name := ident.2;
         points_array := points |})%outcome.

Definition project_name (c : config) : string := "projects/" +:+ PROJECT_ID c.

(** Line 72, the f-string. *)
Definition fetch_filter (q : query) (namespace : string) : string :=
  "metric.type = " +:+ dquote +:+ metric q +:+ dquote +:+
  " AND resource.label.namespace_name = " +:+ namespace.

(** Truthiness of a list: [if xs:] holds exactly when [xs] is not empty. *)
Definition list_truthy {A} (xs : list A) : bool :=
  match xs with
  | [] => false
  | _ :: _ => true
  end.

Local Open Scope list_scope.
Local Open Scope run_scope.

Section Program.

Variable w : world.

(** [logging.info(...)], [logging.error(...)]. *)
Definition logging {L} (level : log_level) (msg : log_msg) : M L unit :=
  emit (EvLog level msg).

(** [client.list_time_series(request=req)]: the call is recorded and the
    backend answers from what happened before it. *)
Definition client_list_time_series {L} (req : list_request) : M L pager :=
  fun fr =>
    let fr' := Frame (trace fr ++ [EvListTimeSeries req]) (local fr) in
    match list_time_series (env w) (trace fr) req with
    | CallRaises e => (Raise e, fr')
    | Returns pg => (Ok pg, fr')
    end.

(** [client.insert_rows_json(table, rows)]. *)
Definition client_insert_rows_json {L} (table : string) (rows : list row)
  : M L (list insert_error) :=
  fun fr =>
    let fr' := Frame (trace fr ++ [EvInsertRowsJson table rows]) (local fr) in
    match insert_rows_json (env w) (trace fr) table rows with
    | InsertRaises e => (Raise e, fr')
    | InsertReturns errors => (Ok errors, fr')
    end.

(** [for result in results: body result] over a pager. *)
Definition for_results {L} (results : pager)
    (body : time_series -> M L unit) : M L unit :=
  do! for_each (pager_items results) body in
  match pager_error results with
  | Some e => raise e
  | None => ret tt
  end.

(** The request of lines 48-75. *)
Definition fetch_request (q : query) (namespace : string) : list_request :=
  {| name := project_name (cfg w);
     filter := fetch_filter q namespace;
     interval :=
       {| start_seconds := seconds (boot w) - window q;
          start_nanos := nanos (boot w);
          end_seconds := seconds (boot w);
          end_nanos := nanos (boot w) |};
     view := FULL;
     aggregation_ :=
       {| alignment_period_seconds := seconds_between_points q;
          per_series_aligner := query_aligner q;
          cross_series_reducer := query_reducer q;
          group_by_fields := columns q |} |}.

(** Lines 67-119, in the frame whose local is [rows]. *)
Definition get_gke_metrics_body (metric_name : string) (query : query)
    (namespace : string) : M (list row) (list row) :=
  do! try_except
        (let! results :=
           client_list_time_series (fetch_request query namespace) in
         do! logging INFO LogBuildingRow in
         for_results results (fun result =>
           let! row := lift (build_row (boot w) metric_name result) in
           modify_local (fun rows => rows ++ [row])))
        (fun error =>
           if is_GoogleAPICallError error
           then logging INFO (LogGoogleAPICallError error)
           else logging INFO (LogUnexpectedError error)) in
  get_local.

Definition get_gke_metrics {L} (metric_name : string) (query : query)
    (namespace : string) : M L (list row) :=
  call [] (get_gke_metrics_body metric_name query namespace).

(** Lines 122-132. *)
Definition write_to_bigquery {L} (rows_to_insert : list row) : M L unit :=
  let! errors :=
    client_insert_rows_json (TABLE_ID (cfg w)) rows_to_insert in
  if negb (list_truthy errors) then
    logging INFO
      (LogSuccessfullyWrote (length rows_to_insert) (TABLE_ID (cfg w)))
  else
    do! logging ERROR (LogInsertErrors errors) in
    raise (InsertRowsException errors).

(** Lines 137-142, the body of the loop over the catalog. *)
Definition pipeline_step {L} (namespace : string)
    (entry : string * query) : M L unit :=
  let metric := entry.1 in
  let query := entry.2 in
  do! logging INFO (LogRetrieving metric namespace) in
  let! rows_to_insert := get_gke_metrics metric query namespace in
  if list_truthy rows_to_insert then write_to_bigquery rows_to_insert
  else logging INFO (LogUnavailableSkip metric).

(** Lines 135-143. *)
Definition run_pipeline {L} (namespace : string) : M L unit :=
  do! for_each (MQL_QUERY (cfg w)) (pipeline_step namespace) in
  logging INFO LogRunCompleted.

(** The request of lines 150-171. *)
Definition discovery_request : list_request :=
  {| name := project_name (cfg w);
     filter :=
       "metric.type = " +:+ dquote +:+
       "kubernetes.io/container/cpu/core_usage_time" +:+ dquote +:+
       "  AND " +:+ namespace_filter (cfg w);
     interval :=
       {| start_seconds := discovery_clock_start (boot w)
                           - METRIC_WINDOW (cfg w);
          start_nanos := 0;
          end_seconds := discovery_clock_end (boot w);
          end_nanos := 0 |};
     view := FULL;
     aggregation_ :=
       {| alignment_period_seconds := METRIC_WINDOW (cfg w);
          per_series_aligner := ALIGN_RATE;
          cross_series_reducer := REDUCE_SUM;
          group_by_fields :=
            ["resource.label." +:+ dquote +:+ "namespace_name" +:+ dquote]
       |} |}.

(** [list(namespaces)]: the elements of the set, in the order of the
    process. *)
Definition list_of_set (namespaces : gset string) : list string :=
  listing (hash_order w) (elements namespaces).

(** Lines 149-183, in the frame whose local is the set [namespaces]. *)
Definition get_namespaces_body : M (gset string) (list string) :=
  try_except
    (let! results := client_list_time_series discovery_request in
     do! logging INFO LogBuildingRow in
     do! for_results results (fun result =>
           let label := resource_labels result in
           modify_local (fun namespaces =>
                           namespaces ∪ {[getitem label "namespace_name"]})) in
     let! namespaces := get_local in
     ret (list_of_set namespaces))
    (fun error =>
       do! (if is_GoogleAPICallError error
            then logging ERROR (LogGoogleAPICallError error)
            else logging ERROR (LogUnexpectedError error)) in
       let! namespaces := get_local in
       ret (list_of_set namespaces)).

Definition get_namespaces {L} : M L (list string) :=
  call (∅ : gset string) get_namespaces_body.

(** Lines 190-191, the loop of the driver. *)
Definition run_namespaces {L} (monitor_namespaces : list string)
  : M L unit :=
  for_each monitor_namespaces (fun namespace => run_pipeline namespace).

(** Lines 186-193. *)
Definition main : M unit unit :=
  let! monitor_namespaces := get_namespaces in
  if (0 <? length monitor_namespaces)%nat
  then run_namespaces monitor_namespaces
  else logging ERROR LogNamespaceListEmpty.

End Program.

(** ** The functions from their first line *)

(** A constructor call: it returns or raises. *)
Definition construct {L} (r : option exn) : M L unit :=
  match r with
  | Some e => raise e
  | None => ret tt
  end.

Module Entry.

Section Entry.

Variable c : construction.
Variable w : world.

(** Lines 46-119: the client, the interval and the aggregation are built
    before the [try]. *)
Definition get_gke_metrics {L} (metric_name : string) (query : query)
    (namespace : string) : M L (list row) :=
  let request := fetch_request w query namespace in
  do! construct (new_metric_client c) in
  do! construct (new_time_interval c (interval request)) in
  do! construct (new_aggregation c (aggregation_ request)) in
  get_gke_metrics w metric_name query namespace.

(** Lines 123-132. *)
Definition write_to_bigquery {L} (rows_to_insert : list row) : M L unit :=
  do! construct (new_bigquery_client c) in
  write_to_bigquery w rows_to_insert.

(** Lines 147-183. *)
Definition get_namespaces {L} : M L (list string) :=
  do! construct (new_metric_client c) in
  do! construct (new_time_interval c (interval (discovery_request w))) in
  do! construct (new_aggregation c (aggregation_ (discovery_request w))) in
  get_namespaces w.

End Entry.

End Entry.

(** Running a computation from a trace, in a frame without local. *)
Definition run {A} (m : M unit A) (t : list event) : outcome A * list event :=
  match m (Frame t tt) with
  | (r, fr) => (r, trace fr)
  end.

(** ** Vocabulary of the properties *)

(** The three identity fields of a row. *)
Definition identity_of (r : row) : string * string * string :=
  (controller_name r, controller_type r, container_name r).

(** The controller pair and the container of an identity triple. *)
Definition controller_part (i : string * string * string) : string * string :=
  (i.1.1, i.1.2).

Definition container_part (i : string * string * string) : string := i.2.

(** The three label bags of a series. *)
Inductive label_bag := MetricLabels | ResourceLabels | MetadataLabels.

Definition same_bag (b : label_bag) (s1 s2 : time_series) : Prop :=
  match b with
  | MetricLabels => metric_labels s1 = metric_labels s2
  | ResourceLabels => resource_labels s1 = resource_labels s2
  | MetadataLabels => metadata_fields s1 = metadata_fields s2
  end.

(** The part [f] of the identity fields of metric [metric_name] is read
    from bag [b] alone: any two series that agree on [b] agree on [f]. *)
Definition depends_only_on {A} (b : label_bag)
    (f : string * string * string -> A) (metric_name : string) : Prop :=
  forall s1 s2,
    same_bag b s1 s2 ->
    f (identity_fields metric_name s1) = f (identity_fields metric_name s2).

(** The three identity fields all come from the one bag [b]. *)
Definition single_source (b : label_bag) (metric_name : string) : Prop :=
  depends_only_on b (fun i => i) metric_name.

(** [needle] occurs in [hay] at some position. *)
Definition occurs_in (needle hay : string) : Prop :=
  exists pre suf, hay = pre +:+ needle +:+ suf.

(** The rows a call returned ([[]] had it raised). *)
Definition returned_rows {L} (res : outcome (list row) * frame L) : list row :=
  match res.1 with
  | Ok rows => rows
  | Raise _ => []
  end.

(** The log line of the two [except] clauses. *)
Definition error_log (level : log_level) (error : exn) : event :=
  if is_GoogleAPICallError error
  then EvLog level (LogGoogleAPICallError error)
  else EvLog level (LogUnexpectedError error).

(** Iteration over the [items] of a pager stops with [e] at position [k]:
    the body raises there, or the items are exhausted and the pager
    raises. *)
Definition stops_at {A} (body : time_series -> outcome A)
    (pg : pager) (k : nat) (e : exn) : Prop :=
  (exists s, pager_items pg !! k = Some s /\ body s = Raise e)
  \/ (k = length (pager_items pg) /\ pager_error pg = Some e).

(** The shape of both loops over a pager: compute from the series, then
    store into the local. *)
Definition collect {L B} (f : time_series -> outcome B) (add : L -> B -> L)
  : time_series -> M L unit :=
  fun s => (let! b := lift (f s) in modify_local (fun l => add l b))%run.

(** The namespace read from a series by line 176. *)
Definition series_namespace (s : time_series) : string :=
  getitem (resource_labels s) "namespace_name".

(** Namespace discovery meets an error: at the call, or while iterating
    the pager. *)
Definition discovery_fails (w : world) (t : list event) : Prop :=
  match list_time_series (env w) t (discovery_request w) with
  | CallRaises _ => True
  | Returns pg => is_Some (pager_error pg)
  end.

(** What the sink leaves behind when the warehouse rejects [rows] with
    [errors]: the hard error, after the insertion call and the error
    line. *)
Definition rejected_batch {L} (w : world) (rows : list row)
    (errors : list insert_error) (fr : frame L) : outcome unit * frame L :=
  (Raise (InsertRowsException errors),
   Frame (trace fr ++
            [EvInsertRowsJson (TABLE_ID (cfg w)) rows;
             EvLog ERROR (LogInsertErrors errors)]) (local fr)).

Definition is_insert (ev : event) : bool :=
  match ev with
  | EvInsertRowsJson _ _ => true
  | _ => false
  end.

Definition count_inserts (t : list event) : nat :=
  length (List.filter is_insert t).

(** The pipeline of [namespace] was started: its first log line is in the
    trace. *)
Definition pipeline_started (namespace : string) (t : list event) : Prop :=
  exists metric, EvLog INFO (LogRetrieving metric namespace) ∈ t.

(** Row [r] has its identity fields read from series [s] the way branch
    [b] prescribes. *)
Definition identity_read_from (b : branch) (s : time_series) (r : row)
  : Prop :=
  match b with
  | HpaBranch =>
      controller_name r
      = default EmptyString (metric_labels s !! "targetref_name") /\
      controller_type r
      = default EmptyString (metric_labels s !! "targetref_kind") /\
      container_name r
      = default EmptyString (metric_labels s !! "container_name")
  | VpaBranch =>
      controller_name r
      = default EmptyString (resource_labels s !! "controller_name") /\
      controller_type r
      = default EmptyString (resource_labels s !! "controller_kind") /\
      container_name r
      = default EmptyString (metric_labels s !! "container_name")
  | GenericBranch =>
      controller_name r
      = default EmptyString
          (string_value <$> metadata_fields s !! "top_level_controller_name")
      /\
      controller_type r
      = default EmptyString
          (string_value <$> metadata_fields s !! "top_level_controller_type")
      /\
      container_name r
      = default EmptyString (resource_labels s !! "container_name")
  end.

(** Every point of the series has its start time set. *)
Definition all_timed (s : time_series) : Prop :=
  Forall (fun rp => exists p, rp = Timed p) (points s).

(** The fields of a [datetime] print on 4, 2, 2, 2, 2, 2 and 6 digits:
    the year has four digits and the others are within their widths, as in
    any timestamp of the last thousand years. *)
Definition datetime_in_range (dt : datetime) : Prop :=
  (10 ^ 3 <= year dt /\ year dt < 10 ^ 4 /\ month dt < 10 ^ 2 /\
   day dt < 10 ^ 2 /\ hour dt < 10 ^ 2 /\ minute dt < 10 ^ 2 /\
   second dt < 10 ^ 2 /\ microsecond dt < 10 ^ 6)%nat.

(** The entry line 108-111 builds from a point. *)
Definition entry_of (p : point) : point_entry :=
  {| metric_timestamp := strftime_micros (interval_start_time p);
     metric_value :=
       match value p with
       | DoubleValue (S754_zero _) => float_of_int (int64_value (value p))
       | DoubleValue d => d
       | v => float_of_int (int64_value v)
       end |}.

(** ** Scenarios *)

Module Scenario.

Definition t0 : datetime :=
  {| year := 2023; month := 11; day := 5; hour := 8; minute := 30;
     second := 0; microsecond := 0 |}.

Definition t1 : datetime :=
  {| year := 2023; month := 11; day := 5; hour := 8; minute := 31;
     second := 0; microsecond := 2500 |}.

(** 1.5 and 2.0 as doubles. *)
Definition d_1_5 : float := S754_finite false 6755399441055744 (-52).
Definition d_2_0 : float := S754_finite false 4503599627370496 (-51).

Definition resource_bag (ns controller : string) : gmap string string :=
  {[ "project_id" := "demo"; "location" := "us-central1";
     "cluster_name" := "prod"; "namespace_name" := ns;
     "container_name" := "app"; "controller_name" := controller;
     "controller_kind" := "Deployment" ]}.

Definition metric_bag (container : string) : gmap string string :=
  {[ "container_name" := container; "targetref_name" := "api-hpa";
     "targetref_kind" := "HorizontalPodAutoscaler" ]}.

Definition metadata_bag (controller : string) : gmap string pb_value :=
  {[ "top_level_controller_name" := PbString controller;
     "top_level_controller_type" := PbString "StatefulSet" ]}.

Definition series_of (ns : string) : time_series :=
  {| resource_labels := resource_bag ns "api";
     metadata_fields := metadata_bag "db";
     metric_labels := metric_bag "app";
     points :=
       [ Timed {| interval_start_time := t0; value := DoubleValue d_1_5 |};
         Timed {| interval_start_time := t1; value := DoubleValue d_2_0 |} ]
  |}.

Definition billing_series : time_series := series_of "billing".

Definition vpa_name : string := "cpu_vpa_recommendation".
Definition upper_name : string := "HPA_cpu_utilization".

(** Variants of [billing_series], one bag changed in each. *)
Definition other_resource : time_series :=
  {| resource_labels := resource_bag "billing" "worker";
     metadata_fields := metadata_fields billing_series;
     metric_labels := metric_labels billing_series;
     points := points billing_series |}.

Definition other_metadata : time_series :=
  {| resource_labels := resource_labels billing_series;
     metadata_fields := metadata_bag "cache";
     metric_labels := metric_labels billing_series;
     points := points billing_series |}.

Definition other_metric : time_series :=
  {| resource_labels := resource_labels billing_series;
     metadata_fields := metadata_fields billing_series;
     metric_labels := metric_bag "sidecar";
     points := points billing_series |}.

Definition descriptor : query :=
  {| metric := "kubernetes.io/autoscaler/container/cpu/per_replica_recommended_request_cores";
     window := 2592000; seconds_between_points := 86400;
     query_aligner := 14; query_reducer := 3;
     columns :=
       ["resource.label." +:+ dquote +:+ "controller_name" +:+ dquote] |}.

Definition vpa_entry : string * query := (vpa_name, descriptor).
Definition memory_name : string := "memory_request".

(** The frame the driver starts in. *)
Definition frame0 : frame unit := Frame [] tt.

(** Two hash seeds: one lists a set as [elements] does, the other in
    the reverse order. *)
Definition seed_order : set_order :=
  {| listing := fun l => l; listing_perm := fun l => Permutation_refl l |}.

Definition other_seed_order : set_order :=
  {| listing := reverse; listing_perm := fun l => reverse_Permutation l |}.

Definition boot0 : startup :=
  {| run_date := t1; seconds := 1699173060; nanos := 0;
     discovery_clock_start := 1699173061;
     discovery_clock_end := 1699173061 |}.

Definition config_of (catalog : list (string * query)) : config :=
  {| PROJECT_ID := "demo"; TABLE_ID := "demo.metrics.vpa";
     METRIC_WINDOW := 259200;
     namespace_filter :=
       "resource.label.namespace_name != " +:+ dquote +:+ "kube-system"
       +:+ dquote;
     MQL_QUERY := catalog |}.

(** A request is the discovery query when it groups by namespace. *)
Definition is_discovery (req : list_request) : bool :=
  bool_decide
    (group_by_fields (aggregation_ req)
     = ["resource.label." +:+ dquote +:+ "namespace_name" +:+ dquote]).

(** Scenario A: one catalog entry, namespace "billing", one series, every
    insertion accepted. *)
Definition world_A : world :=
  {| cfg := config_of [(vpa_name, descriptor)];
     env := {| list_time_series := fun _ _ =>
                 Returns {| pager_items := [billing_series];
                            pager_error := None |};
               insert_rows_json := fun _ _ _ => InsertReturns [] |};
     boot := boot0; hash_order := seed_order |}.

(** Discovery yields one series, then fetching the next page fails. *)
Definition world_partial : world :=
  {| cfg := config_of [(vpa_name, descriptor)];
     env := {| list_time_series := fun _ _ =>
                 Returns {| pager_items := [billing_series];
                            pager_error :=
                              Some (GoogleAPICallError "503 unavailable") |};
               insert_rows_json := fun _ _ _ => InsertReturns [] |};
     boot := boot0; hash_order := seed_order |}.

Definition rejected : list insert_error :=
  [ {| error_index := 0; error_details := ["invalid"] |} ].

(** Two namespaces are discovered, every fetch yields one series, and the
    warehouse rejects a row of every batch. *)
Definition world_rejecting : world :=
  {| cfg := config_of [(vpa_name, descriptor)];
     env := {| list_time_series := fun _ req =>
                 if is_discovery req
                 then Returns {| pager_items := [series_of "billing";
                                                 series_of "checkout"];
                                 pager_error := None |}
                 else Returns {| pager_items := [billing_series];
                                 pager_error := None |};
               insert_rows_json := fun _ _ _ => InsertReturns rejected |};
     boot := boot0; hash_order := seed_order |}.

(** The same under the other hash seed. *)
Definition world_rejecting_other_seed : world :=
  {| cfg := cfg world_rejecting; env := env world_rejecting;
     boot := boot world_rejecting; hash_order := other_seed_order |}.

(** Three catalog entries, every fetch yields one series, and the
    warehouse rejects the fifth batch it is sent. *)
Definition cpu_name : string := "cpu_request".

Definition world_staged : world :=
  {| cfg := config_of [(memory_name, descriptor); vpa_entry;
                       (cpu_name, descriptor)];
     env := {| list_time_series := fun _ _ =>
                 Returns {| pager_items := [billing_series];
                            pager_error := None |};
               insert_rows_json := fun t _ _ =>
                 if Nat.eqb (count_inserts t) 4
                 then InsertReturns rejected
                 else InsertReturns [] |};
     boot := boot0; hash_order := seed_order |}.

(** Every constructor returns. *)
Definition construction_ok : construction :=
  {| new_metric_client := None;
     new_time_interval := fun _ => None;
     new_aggregation := fun _ => None;
     new_bigquery_client := None |}.

(** No credentials: the monitoring client cannot be built. *)
Definition no_credentials : exn :=
  OtherException "DefaultCredentialsError".

Definition construction_without_credentials : construction :=
  {| new_metric_client := Some no_credentials;
     new_time_interval := fun _ => None;
     new_aggregation := fun _ => None;
     new_bigquery_client := None |}.

(** Two catalog entries; the backend has no series for the first and one
    for the second. *)
Definition world_sparse : world :=
  {| cfg := config_of [(memory_name, descriptor);
                       (vpa_name, descriptor)];
     env := {| list_time_series := fun t _ =>
                 if bool_decide (length t <= 1)%nat
                 then Returns {| pager_items := []; pager_error := None |}
                 else Returns {| pager_items := [billing_series];
                                 pager_error := None |};
               insert_rows_json := fun _ _ _ => InsertReturns [] |};
     boot := boot0; hash_order := seed_order |}.

(** The row scenario A expects. *)
Definition row_A : row :=
  {| run_date_ := "2023-11-05 08:31:00";
     metric_name_ := vpa_name;
     project_id := "demo"; location := "us-central1";
     cluster_name := "prod"; namespace_name := "billing";
     controller_name := "api"; controller_type := "Deployment";
     container_name := "app";
     points_array :=
       [ {| metric_timestamp := "2023-11-05 08:30:00.000000";
            metric_value := d_1_5 |};
         {| metric_timestamp := "2023-11-05 08:31:00.002500";
            metric_value := d_2_0 |} ] |}.

(** The frames of the staged run: after the pipeline of "alpha", after
    the first catalog entry of "billing", after the fetch of its second. *)
Definition staged_ns_frame : frame unit :=
  (run_namespaces world_staged ["alpha"] frame0).2.

Definition staged_step_frame : frame unit :=
  (for_each [(memory_name, descriptor)] (pipeline_step world_staged "billing")
     staged_ns_frame).2.

Definition staged_fetch_frame : frame unit :=
  (get_gke_metrics world_staged vpa_name descriptor "billing"
     (Frame (trace staged_step_frame ++
               [EvLog INFO (LogRetrieving vpa_name "billing")])
        (local staged_step_frame))).2.

Definition invalid_row : insert_error :=
  {| error_index := 0; error_details := ["invalid"] |}.

End Scenario.

(** ** Vocabulary of the further properties *)

Definition is_list_call (ev : event) : bool :=
  match ev with
  | EvListTimeSeries _ => true
  | _ => false
  end.

Definition count_list_calls (t : list event) : nat :=
  length (List.filter is_list_call t).

(** The log lines [get_gke_metrics] and [get_namespaces] write. *)
Definition is_fetch_log (ev : event) : bool :=
  match ev with
  | EvLog _ LogBuildingRow => true
  | EvLog _ (LogGoogleAPICallError _) => true
  | EvLog _ (LogUnexpectedError _) => true
  | _ => false
  end.

(** What one event of the pipeline of [namespace] may be: a fetch of a
    catalog entry for this namespace, an insertion of a non-empty batch of
    rows of one catalog metric into the configured table, or a log line
    (a "Retrieving" line naming a catalog metric and this namespace). *)
Definition pipeline_event (w : world) (namespace : string) (ev : event)
  : Prop :=
  match ev with
  | EvListTimeSeries req =>
      exists entry, entry ∈ MQL_QUERY (cfg w) /\
                    req = fetch_request w entry.2 namespace
  | EvInsertRowsJson table rows =>
      table = TABLE_ID (cfg w) /\ rows <> [] /\
      exists entry, entry ∈ MQL_QUERY (cfg w) /\
                    Forall (fun r => metric_name_ r = entry.1) rows
  | EvLog _ (LogRetrieving metric_name ns) =>
      ns = namespace /\ exists entry, entry ∈ MQL_QUERY (cfg w) /\
                                      metric_name = entry.1
  | EvLog _ LogNamespaceListEmpty => False
  | EvLog _ _ => True
  end.

(** Exception [e] comes out of the sink: the warehouse client raised it,
    or it is the hard error built from a non-empty error list, for some
    insertion of a non-empty batch into the configured table. *)
Definition sink_failure (w : world) (e : exn) : Prop :=
  exists t rows,
    rows <> [] /\
    match insert_rows_json (env w) t (TABLE_ID (cfg w)) rows with
    | InsertRaises e' => e = e'
    | InsertReturns errors => errors <> [] /\ e = InsertRowsException errors
    end.

(** ** Further scenarios *)

Module Outage.

Import Scenario.

(** A series without the "location" resource label. *)
Definition unlabelled_series : time_series :=
  {| resource_labels := delete "location" (resource_bag "billing" "api");
     metadata_fields := metadata_fields billing_series;
     metric_labels := metric_labels billing_series;
     points := points billing_series |}.

(** A series whose second point has no start time. *)
Definition untimed_series : time_series :=
  {| resource_labels := resource_labels billing_series;
     metadata_fields := metadata_fields billing_series;
     metric_labels := metric_labels billing_series;
     points :=
       [ Timed {| interval_start_time := t0; value := DoubleValue d_1_5 |};
         Untimed (Int64Value 3) ] |}.

(** The fetch answers a good series, the untimed one, a good one. *)
Definition world_truncated : world :=
  {| cfg := config_of [vpa_entry];
     env := {| list_time_series := fun _ _ =>
                 Returns {| pager_items := [billing_series; untimed_series;
                                            billing_series];
                            pager_error := None |};
               insert_rows_json := fun _ _ _ => InsertReturns [] |};
     boot := boot0; hash_order := seed_order |}.

Definition quota : exn := GoogleAPICallError "429 quota exceeded".

(** Every call to the monitoring backend fails. *)
Definition world_down : world :=
  {| cfg := config_of [vpa_entry];
     env := {| list_time_series := fun _ _ => CallRaises quota;
               insert_rows_json := fun _ _ _ => InsertReturns [] |};
     boot := boot0; hash_order := seed_order |}.

End Outage.

(** * Properties *)

(** ** Strings *)

Section Strings.

Local Arguments String.append !s1 s2 / : simpl nomatch.

Lemma append_assoc (a b c : string) : (a +:+ b) +:+ c = a +:+ (b +:+ c).
Proof. induction a as [|x a IH]; cbn; [reflexivity | by f_equal]. Qed.

Lemma append_cancel_l (a b c : string) : a +:+ b = a +:+ c -> b = c.
Proof.
  induction a as [|x a IH]; simpl; intros H; [exact H |].
  injection H as H. by apply IH.
Qed.

Lemma append_length (a b : string) :
  String.length (a +:+ b) = (String.length a + String.length b)%nat.
Proof. induction a as [|x a IH]; cbn; [reflexivity | by f_equal]. Qed.

Lemma prefix_spec (s1 s2 : string) :
  String.prefix s1 s2 = true <-> exists suf, s2 = s1 +:+ suf.
Proof.
  revert s2. induction s1 as [|a s1 IH]; intros s2.
  - destruct s2; simpl; split; eauto.
  - destruct s2 as [|b s2]; simpl.
    + split; [discriminate | intros [suf H]; discriminate].
    + destruct (ascii_dec a b) as [->|Hne].
      * rewrite IH. split; intros [suf H]; exists suf.
        -- by rewrite H.
        -- by injection H.
      * split; [discriminate |].
        intros [suf H]. injection H as H1 _. by destruct Hne.
Qed.

Lemma str_in_spec (needle hay : string) :
  str_in needle hay = true <-> occurs_in needle hay.
Proof.
  unfold occurs_in. induction hay as [|c hay IH].
  - cbn [str_in]. destruct (String.prefix needle EmptyString) eqn:Hp.
    + split; [intros _ | done].
      apply prefix_spec in Hp as [suf H]. by exists EmptyString, suf.
    + split; [discriminate |].
      intros (pre & suf & H). destruct pre; simpl in H; [| discriminate].
      assert (String.prefix needle EmptyString = true) as Hp'
        by (apply prefix_spec; eauto).
      congruence.
  - cbn [str_in]. destruct (String.prefix needle (String c hay)) eqn:Hp.
    + split; [intros _ | done].
      apply prefix_spec in Hp as [suf H]. by exists EmptyString, suf.
    + rewrite IH. split.
      * intros (pre & suf & H). exists (String c pre), suf.
        simpl. by rewrite H.
      * intros (pre & suf & H). destruct pre as [|d pre]; simpl in H.
        -- assert (String.prefix needle (String c hay) = true) as Hp'
             by (apply prefix_spec; eauto).
           congruence.
        -- injection H as _ H. eauto.
Qed.

Lemma str_in_occurrence (needle pre suf : string) :
  str_in needle (pre +:+ needle +:+ suf) = true.
Proof. apply str_in_spec. by exists pre, suf. Qed.

Lemma zero_pad_length (width n : nat) :
  String.length (zero_pad width n) = width.
Proof.
  revert n. induction width as [|width IH]; intros n; simpl; [done |].
  rewrite append_length, IH. simpl. lia.
Qed.

Lemma append_snoc_inj (a b : string) (x y : ascii) :
  a +:+ String x EmptyString = b +:+ String y EmptyString ->
  a = b /\ x = y.
Proof.
  revert b. induction a as [|c a IH]; intros [|d b]; simpl; intros H.
  - by injection H.
  - destruct b; discriminate.
  - destruct a; discriminate.
  - injection H as -> H. apply IH in H as [-> ->]. done.
Qed.

Lemma digit_char_inj (n m : nat) :
  digit_char n = digit_char m -> n mod 10 = m mod 10.
Proof.
  unfold digit_char. intros H.
  apply (f_equal nat_of_ascii) in H.
  assert (n mod 10 < 10)%nat by (apply Nat.mod_upper_bound; lia).
  assert (m mod 10 < 10)%nat by (apply Nat.mod_upper_bound; lia).
  rewrite !nat_ascii_embedding in H by lia. lia.
Qed.

(** Below [10 ^ width] the padded rendering determines the number. *)
Lemma zero_pad_inj (width n m : nat) :
  (n < 10 ^ width)%nat -> (m < 10 ^ width)%nat ->
  zero_pad width n = zero_pad width m -> n = m.
Proof.
  revert n m. induction width as [|width IH]; intros n m Hn Hm H.
  - simpl in Hn, Hm. lia.
  - simpl in H. apply append_snoc_inj in H as [H Hd].
    apply digit_char_inj in Hd.
    rewrite Nat.pow_succ_r' in Hn, Hm.
    assert (n / 10 = m / 10) as Hq.
    { apply IH; [| | done]; apply Nat.Div0.div_lt_upper_bound; lia. }
    rewrite (Nat.div_mod_eq n 10), (Nat.div_mod_eq m 10). lia.
Qed.

Lemma count_char_append (c : ascii) (a b : string) :
  count_char c (a +:+ b) = (count_char c a + count_char c b)%nat.
Proof.
  induction a as [|x a IH]; cbn; [reflexivity |]. rewrite IH. lia.
Qed.

Lemma digits_upto_le (fuel n w : nat) :
  (1 <= w)%nat -> (n < 10 ^ w)%nat -> (digits_upto fuel n <= w)%nat.
Proof.
  revert n w. induction fuel as [|fuel IH]; intros n w Hw Hn; cbn [digits_upto].
  - done.
  - destruct (Nat.ltb_spec n 10) as [Hlt|Hge]; [done |].
    destruct w as [|[|w]]; [lia | cbn in Hn; lia |].
    apply le_n_S, IH; [lia |].
    rewrite Nat.pow_succ_r' in Hn.
    apply Nat.Div0.div_lt_upper_bound. lia.
Qed.

Lemma digits_upto_gt (fuel n w : nat) :
  (n <= fuel)%nat -> (10 ^ w <= n)%nat -> (w < digits_upto fuel n)%nat.
Proof.
  revert n w. induction fuel as [|fuel IH]; intros n w Hf Hn.
  - pose proof (Nat.pow_nonzero 10 w). lia.
  - cbn [digits_upto]. destruct (Nat.ltb_spec n 10) as [Hlt|Hge].
    + destruct w as [|w]; [lia |]. rewrite Nat.pow_succ_r' in Hn.
      pose proof (Nat.pow_nonzero 10 w). lia.
    + destruct w as [|w]; [lia |]. rewrite Nat.pow_succ_r' in Hn.
      apply -> Nat.succ_lt_mono. apply IH.
      * assert (n / 10 < n)%nat by (apply Nat.div_lt; lia). lia.
      * apply Nat.div_le_lower_bound; lia.
Qed.

(** Within its width a field prints on exactly that many digits. *)
Lemma pad_in_range (width n : nat) :
  (1 <= width)%nat -> (n < 10 ^ width)%nat -> pad width n = zero_pad width n.
Proof.
  intros Hw Hn. unfold pad, digits.
  pose proof (digits_upto_le n n width Hw Hn). by rewrite Nat.max_l.
Qed.

(** A year of four digits prints on four digits. *)
Lemma pad_year (y : nat) :
  (10 ^ 3 <= y)%nat -> (y < 10 ^ 4)%nat -> pad 1 y = zero_pad 4 y.
Proof.
  intros Hlo Hhi. unfold pad, digits.
  pose proof (digits_upto_le y y 4 ltac:(lia) Hhi).
  pose proof (digits_upto_gt y y 3 ltac:(lia) Hlo).
  replace (digits_upto y y) with 4%nat by lia. reflexivity.
Qed.

End Strings.

(** ** Classification *)

Section Classification.

Lemma classify_hpa (metric_name : string) :
  classify metric_name = HpaBranch <-> occurs_in "hpa" metric_name.
Proof.
  rewrite <- str_in_spec. unfold classify.
  destruct (str_in "hpa" metric_name); [done |].
  destruct (str_in "vpa" metric_name); split; discriminate.
Qed.

Lemma classify_vpa (metric_name : string) :
  classify metric_name = VpaBranch <->
  ~ occurs_in "hpa" metric_name /\ occurs_in "vpa" metric_name.
Proof.
  rewrite <- !str_in_spec. unfold classify.
  destruct (str_in "hpa" metric_name).
  - split; [discriminate | intros [H _]; by destruct H].
  - destruct (str_in "vpa" metric_name); split; try done.
    + intros [_ H]. discriminate.
Qed.

Lemma classify_generic (metric_name : string) :
  classify metric_name = GenericBranch <->
  ~ occurs_in "hpa" metric_name /\ ~ occurs_in "vpa" metric_name.
Proof.
  rewrite <- !str_in_spec. unfold classify.
  destruct (str_in "hpa" metric_name).
  - split; [discriminate | intros [H _]; by destruct H].
  - destruct (str_in "vpa" metric_name); split; try done.
    + intros [_ H]. by destruct H.
Qed.

End Classification.

(** ** Loops that collect *)

Section Collecting.

Context {L B : Type}.
Variable f : time_series -> outcome B.
Variable add : L -> B -> L.

Let body : time_series -> M L unit := collect f add.

Lemma for_each_collect (items : list time_series) (t : list event) (acc : L) :
  exists k bs,
    Forall2 (fun s b => f s = Ok b) (take k items) bs /\
    ((k = length items /\
      for_each items body (Frame t acc) = (Ok tt, Frame t (foldl add acc bs)))
     \/
     (exists s e, items !! k = Some s /\ f s = Raise e /\
      for_each items body (Frame t acc)
      = (Raise e, Frame t (foldl add acc bs)))).
Proof.
  revert acc. induction items as [|s items IH]; intros acc.
  - exists 0%nat, []. split; [constructor |]. left. done.
  - destruct (f s) as [b|e] eqn:Hf.
    + destruct (IH (add acc b)) as (k & bs & Hbs & Hrun).
      exists (S k), (b :: bs). split; [by constructor |].
      assert (for_each (s :: items) body (Frame t acc)
              = for_each items body (Frame t (add acc b))) as Hstep.
      { cbn [for_each].
        unfold bind at 1, body at 1, collect at 1, bind, lift, modify_local.
        by rewrite Hf. }
      rewrite Hstep. cbn [foldl length].
      destruct Hrun as [[-> Hrun] | (s' & e & Hk & Hs' & Hrun)].
      * left. done.
      * right. exists s', e. done.
    + exists 0%nat, []. split; [constructor |]. right. exists s, e.
      split; [done |]. split; [done |].
      cbn [for_each]. unfold bind at 1, body at 1, collect at 1, bind, lift.
      by rewrite Hf.
Qed.

Lemma for_results_collect (pg : pager) (t : list event) (acc : L) :
  exists k bs,
    Forall2 (fun s b => f s = Ok b) (take k (pager_items pg)) bs /\
    ((k = length (pager_items pg) /\ pager_error pg = None /\
      for_results pg body (Frame t acc)
      = (Ok tt, Frame t (foldl add acc bs)))
     \/
     (exists e, stops_at f pg k e /\
      for_results pg body (Frame t acc)
      = (Raise e, Frame t (foldl add acc bs)))).
Proof.
  destruct (for_each_collect (pager_items pg) t acc)
    as (k & bs & Hbs & [[-> Hrun] | (s & e & Hk & Hs & Hrun)]).
  - exists (length (pager_items pg)), bs. split; [done |].
    unfold for_results, bind. rewrite Hrun.
    destruct (pager_error pg) as [e|] eqn:He.
    + right. exists e. split; [by right | done].
    + left. done.
  - exists k, bs. split; [done |]. right. exists e.
    split; [left; by exists s |].
    unfold for_results, bind. by rewrite Hrun.
Qed.

End Collecting.

Lemma foldl_snoc {A} (acc l : list A) :
  foldl (fun rows r => rows ++ [r]) acc l = acc ++ l.
Proof.
  revert acc. induction l as [|x l IH]; intros acc; cbn [foldl].
  - by rewrite app_nil_r.
  - rewrite IH, <- app_assoc. done.
Qed.

Lemma foldl_add (acc : gset string) (l : list string) :
  foldl (fun namespaces ns => namespaces ∪ {[ns]}) acc l
  = acc ∪ list_to_set l.
Proof.
  revert acc. induction l as [|x l IH]; intros acc; cbn [foldl list_to_set].
  - by rewrite (right_id_L ∅ (∪)).
  - by rewrite IH, (assoc_L (∪)).
Qed.

(** ** The fetcher *)

Section Fetcher.

Variable w : world.
Context {L : Type}.

(** What [get_gke_metrics] does, for every answer of the backend. *)
Lemma get_gke_metrics_run (metric_name : string) (q : query)
    (namespace : string) (fr : frame L) :
  exists rows logs,
    get_gke_metrics w metric_name q namespace fr
    = (Ok rows,
       Frame (trace fr ++ EvListTimeSeries (fetch_request w q namespace)
                :: logs) (local fr)) /\
    match list_time_series (env w) (trace fr)
            (fetch_request w q namespace) with
    | CallRaises e => rows = [] /\ logs = [error_log INFO e]
    | Returns pg =>
        exists k,
          Forall2 (fun s r => build_row (boot w) metric_name s = Ok r)
            (take k (pager_items pg)) rows /\
          ((k = length (pager_items pg) /\ pager_error pg = None /\
            logs = [EvLog INFO LogBuildingRow])
           \/
           (exists e, stops_at (build_row (boot w) metric_name) pg k e /\
            logs = [EvLog INFO LogBuildingRow; error_log INFO e]))
    end.
Proof.
  unfold get_gke_metrics, call, get_gke_metrics_body.
  unfold bind at 1, try_except, bind at 1, client_list_time_series.
  cbn [trace local].
  destruct (list_time_series (env w) (trace fr)
              (fetch_request w q namespace)) as [e|pg].
  - exists [], [error_log INFO e]. split; [| done].
    unfold error_log, logging, emit, get_local.
    destruct (is_GoogleAPICallError e); cbn [trace local];
      by rewrite <- app_assoc.
  - unfold bind at 1, logging at 1, emit at 1. cbn [trace local].
    destruct (for_results_collect (build_row (boot w) metric_name)
                (fun rows r => rows ++ [r]) pg
                ((trace fr ++ [EvListTimeSeries (fetch_request w q namespace)])
                   ++ [EvLog INFO LogBuildingRow]) [])
      as (k & rows & Hrows & Hcases).
    unfold collect in Hcases.
    destruct Hcases as [(-> & Herr & Hrun) | (e & Hstop & Hrun)];
      rewrite Hrun, foldl_snoc; cbn [app].
    + exists rows, [EvLog INFO LogBuildingRow]. split.
      * unfold get_local. cbn [trace local]. by rewrite <- app_assoc.
      * exists (length (pager_items pg)). split; [done |]. by left.
    + exists rows, [EvLog INFO LogBuildingRow; error_log INFO e]. split.
      * unfold error_log, logging, emit, get_local.
        destruct (is_GoogleAPICallError e); cbn [trace local];
          by rewrite <- !app_assoc.
      * exists k. split; [done |]. right. by exists e.
Qed.

End Fetcher.

Section CollectingMore.

Context {L B : Type}.
Variable f : time_series -> outcome B.
Variable add : L -> B -> L.

Lemma for_each_collect_all (items : list time_series) (bs : list B)
    (t : list event) (acc : L) :
  Forall2 (fun s b => f s = Ok b) items bs ->
  for_each items (collect f add) (Frame t acc)
  = (Ok tt, Frame t (foldl add acc bs)).
Proof.
  intros H. revert acc. induction H as [|s b items bs Hs _ IH]; intros acc.
  - reflexivity.
  - cbn [for_each foldl]. unfold bind at 1, collect at 1, bind, lift,
      modify_local. rewrite Hs. cbn [trace local]. apply IH.
Qed.

Lemma for_each_collect_stops (good later : list time_series)
    (bad : time_series) (bs : list B) (e : exn) (t : list event) (acc : L) :
  Forall2 (fun s b => f s = Ok b) good bs ->
  f bad = Raise e ->
  for_each (good ++ bad :: later) (collect f add) (Frame t acc)
  = (Raise e, Frame t (foldl add acc bs)).
Proof.
  intros H Hbad. revert acc.
  induction H as [|s b items bs Hs _ IH]; intros acc.
  - cbn [app for_each foldl]. unfold bind at 1, collect at 1, bind, lift.
    by rewrite Hbad.
  - cbn [app for_each foldl]. unfold bind at 1, collect at 1, bind, lift,
      modify_local. rewrite Hs. cbn [trace local]. apply IH.
Qed.

End CollectingMore.

(** ** Rows *)

Section Rows.

Variable st : startup.

Lemma outcome_bind_ok {A B} (r : outcome A) (k : A -> outcome B) (b : B) :
  outcome_bind r k = Ok b -> exists a, r = Ok a /\ k a = Ok b.
Proof. destruct r as [a|e]; cbn; [eauto | discriminate]. Qed.

Lemma build_points_timed (ps : list point) (acc : list point_entry) :
  build_points (map Timed ps) acc = Ok (acc ++ map build_point ps).
Proof.
  revert acc. induction ps as [|p ps IH]; intros acc; cbn.
  - by rewrite app_nil_r.
  - by rewrite IH, <- app_assoc.
Qed.

(** The inner loop returns exactly when every point has a start time, and
    otherwise raises the [AttributeError] of [None.strftime]. *)
Lemma build_points_cases (ps : list raw_point) (acc : list point_entry) :
  (exists qs, ps = map Timed qs /\
              build_points ps acc = Ok (acc ++ map build_point qs))
  \/ (build_points ps acc = Raise no_strftime /\
      exists v, Untimed v ∈ ps).
Proof.
  revert acc. induction ps as [|[p|v] ps IH]; intros acc.
  - left. exists []. cbn. by rewrite app_nil_r.
  - destruct (IH (acc ++ [build_point p]))
      as [(qs & -> & H) | (H & v & Hv)].
    + left. exists (p :: qs). cbn. by rewrite H, <- app_assoc.
    + right. split; [exact H |]. exists v. by right.
  - right. split; [reflexivity |]. exists v. by left.
Qed.

Lemma build_row_cases (metric_name : string) (s : time_series) :
  (exists qs,
     points s = map Timed qs /\
     build_row st metric_name s
     = Ok {| run_date_ := strftime_seconds (run_date st);
             metric_name_ := metric_name;
             project_id := getitem (resource_labels s) "project_id";
             location := getitem (resource_labels s) "location";
             cluster_name := getitem (resource_labels s) "cluster_name";
             namespace_name := getitem (resource_labels s) "namespace_name";
             controller_name := (identity_fields metric_name s).1.1;
             controller_type := (identity_fields metric_name s).1.2;
             container_name := (identity_fields metric_name s).2;
             points_array := map build_point qs |})
  \/ (build_row st metric_name s = Raise no_strftime /\
      exists v, Untimed v ∈ points s).
Proof.
  unfold build_row.
  destruct (build_points_cases (points s) []) as [(qs & Hqs & H) | (H & Hv)].
  - left. exists qs. split; [exact Hqs |]. by rewrite H.
  - right. split; [by rewrite H | exact Hv].
Qed.

Lemma map_Timed_all (qs : list point) :
  Forall (fun rp => exists p, rp = Timed p) (map Timed qs).
Proof. induction qs; constructor; eauto. Qed.

Lemma build_row_inv (metric_name : string) (s : time_series) (r : row) :
  build_row st metric_name s = Ok r ->
  exists qs,
    points s = map Timed qs /\
    points_array r = map build_point qs /\
    identity_of r = identity_fields metric_name s /\
    metric_name_ r = metric_name /\
    run_date_ r = strftime_seconds (run_date st) /\
    project_id r = getitem (resource_labels s) "project_id" /\
    location r = getitem (resource_labels s) "location" /\
    cluster_name r = getitem (resource_labels s) "cluster_name" /\
    namespace_name r = getitem (resource_labels s) "namespace_name".
Proof.
  intros H.
  destruct (build_row_cases metric_name s) as [(qs & Hqs & Hr) | (Hr & _)];
    rewrite Hr in H; [| discriminate].
  injection H as <-. exists qs. cbn. unfold identity_of. cbn.
  by destruct (identity_fields metric_name s) as [[a b] c].
Qed.

Lemma build_row_ok_iff (metric_name : string) (s : time_series) :
  (exists r, build_row st metric_name s = Ok r) <-> all_timed s.
Proof.
  unfold all_timed. split.
  - intros [r H]. apply build_row_inv in H as (qs & -> & _).
    apply map_Timed_all.
  - intros Hall.
    destruct (build_row_cases metric_name s)
      as [(qs & _ & Hr) | (_ & v & Hv)]; [eauto |].
    rewrite Forall_forall in Hall. destruct (Hall _ Hv) as [p Hp].
    discriminate Hp.
Qed.

Lemma build_row_raise_inv (metric_name : string) (s : time_series)
    (e : exn) :
  build_row st metric_name s = Raise e ->
  e = no_strftime /\ exists v, Untimed v ∈ points s.
Proof.
  intros H.
  destruct (build_row_cases metric_name s) as [(qs & _ & Hr) | (Hr & Hv)];
    rewrite Hr in H; [discriminate |].
  injection H as <-. done.
Qed.

Lemma getitem_value_string (m : gmap string pb_value) (key : string) :
  string_value (getitem_value m key)
  = default EmptyString (string_value <$> m !! key).
Proof. unfold getitem_value. by destruct (m !! key). Qed.

Lemma identity_fields_lookups (metric_name : string) (s : time_series)
    (r : row) :
  identity_of r = identity_fields metric_name s ->
  identity_read_from (classify metric_name) s r.
Proof.
  unfold identity_fields, classify, identity_of. intros H.
  destruct (str_in "hpa" metric_name);
    [| destruct (str_in "vpa" metric_name)];
    cbv zeta in H; injection H as E1 E2 E3; cbn;
    rewrite E1, E2, E3, ?getitem_value_string; done.
Qed.

Lemma build_row_identity (metric_name : string) (s : time_series) (r : row) :
  build_row st metric_name s = Ok r ->
  identity_read_from (classify metric_name) s r.
Proof.
  intros H. apply build_row_inv in H as (qs & _ & _ & H & _).
  by apply identity_fields_lookups.
Qed.

Lemma build_point_entry (p : point) : build_point p = entry_of p.
Proof.
  unfold build_point, entry_of, point_value. f_equal.
  destruct (value p) as [| | d | | |]; try reflexivity.
  by destruct d.
Qed.

(** In the HPA branch the identity fields are a function of the metric
    labels. *)
Lemma hpa_single_source (metric_name : string) :
  classify metric_name = HpaBranch ->
  single_source MetricLabels metric_name.
Proof.
  unfold classify, single_source, depends_only_on, identity_fields.
  destruct (str_in "hpa" metric_name);
    [| destruct (str_in "vpa" metric_name); discriminate].
  intros _ s1 s2 Hsame. cbn in Hsame. by rewrite Hsame.
Qed.

Lemma vpa_sources (metric_name : string) :
  classify metric_name = VpaBranch ->
  depends_only_on ResourceLabels controller_part metric_name /\
  depends_only_on MetricLabels container_part metric_name.
Proof.
  unfold classify, depends_only_on, identity_fields.
  destruct (str_in "hpa" metric_name); [discriminate |].
  destruct (str_in "vpa" metric_name); [| discriminate].
  intros _. split; intros s1 s2 Hsame; cbn in Hsame;
    unfold controller_part, container_part; cbn; by rewrite Hsame.
Qed.

Lemma generic_sources (metric_name : string) :
  classify metric_name = GenericBranch ->
  depends_only_on MetadataLabels controller_part metric_name /\
  depends_only_on ResourceLabels container_part metric_name.
Proof.
  unfold classify, depends_only_on, identity_fields.
  destruct (str_in "hpa" metric_name); [discriminate |].
  destruct (str_in "vpa" metric_name); [discriminate |].
  intros _. split; intros s1 s2 Hsame; cbn in Hsame;
    unfold controller_part, container_part; cbn; by rewrite Hsame.
Qed.

End Rows.

(** ** Timestamps *)

Section Timestamps.

Lemma strftime_micros_length (dt : datetime) :
  datetime_in_range dt -> String.length (strftime_micros dt) = 26%nat.
Proof.
  intros (Y1 & Y2 & Mo & D & H & Mi & S & U).
  unfold strftime_micros, strftime_seconds.
  rewrite (pad_year _ Y1 Y2).
  rewrite !pad_in_range by (done || lia).
  rewrite !append_length, !zero_pad_length. reflexivity.
Qed.

Lemma strftime_micros_microsecond (dt1 dt2 : datetime) :
  strftime_seconds dt1 = strftime_seconds dt2 ->
  (microsecond dt1 < 10 ^ 6)%nat -> (microsecond dt2 < 10 ^ 6)%nat ->
  strftime_micros dt1 = strftime_micros dt2 ->
  microsecond dt1 = microsecond dt2.
Proof.
  intros Hsec H1 H2. unfold strftime_micros. rewrite Hsec.
  rewrite !pad_in_range by (done || lia). intros Heq.
  apply append_cancel_l, append_cancel_l in Heq.
  by apply zero_pad_inj in Heq.
Qed.

End Timestamps.

(** ** Claims on the metric fetcher *)

Section FetcherClaims.

Variable w : world.
Context {L : Type}.

(** C1. Every row a fetch returns comes from the series at the same
    position of the backend's answer, and its controller_name,
    controller_type and container_name are read as the branch of the metric
    name prescribes: from the metric labels targetref_name, targetref_kind
    and container_name when the name contains "hpa"; else, when it contains
    "vpa", from the resource labels controller_name and controller_kind and
    the metric label container_name; else from the metadata fields
    top_level_controller_name and top_level_controller_type and the
    resource label container_name.  A label the series lacks reads as the
    empty string.  The three branches are tried in this order and exactly
    one applies. *)
Theorem identity_fields_follow_classification (metric_name : string)
    (q : query) (namespace : string) (fr : frame L) (i : nat) (r : row) :
  returned_rows (get_gke_metrics w metric_name q namespace fr) !! i
  = Some r ->
  (exists pg s,
     list_time_series (env w) (trace fr) (fetch_request w q namespace)
     = Returns pg /\
     pager_items pg !! i = Some s /\
     build_row (boot w) metric_name s = Ok r /\
     identity_read_from (classify metric_name) s r) /\
  (classify metric_name = HpaBranch <-> occurs_in "hpa" metric_name) /\
  (classify metric_name = VpaBranch <->
   ~ occurs_in "hpa" metric_name /\ occurs_in "vpa" metric_name) /\
  (classify metric_name = GenericBranch <->
   ~ occurs_in "hpa" metric_name /\ ~ occurs_in "vpa" metric_name).
Proof.
  intros Hi.
  split; [| by auto using classify_hpa, classify_vpa, classify_generic].
  destruct (get_gke_metrics_run w metric_name q namespace fr)
    as (rows & logs & Hrun & Hresp).
  unfold returned_rows in Hi. rewrite Hrun in Hi. cbn in Hi.
  destruct (list_time_series (env w) (trace fr)
              (fetch_request w q namespace)) as [e|pg].
  - destruct Hresp as [-> _]. discriminate.
  - destruct Hresp as (k & Hrows & _).
    destruct (Forall2_lookup_r _ _ _ _ _ Hrows Hi) as (s & Hs & Hbuild).
    apply lookup_take_Some in Hs as [Hs _].
    exists pg, s. eauto using build_row_identity.
Qed.

(** C7, as amended.  Once the client, the interval and the aggregation
    are built, [get_gke_metrics] returns and does not raise, whatever the
    backend does.  When the call itself fails the result is empty and the
    error is logged; when iteration stops with an error at position [k]
    (raised by the pager, or by a point without start time while the row
    is built) the result is exactly the rows of the series before [k], and
    the error is logged; without error it is the rows of all the series. *)
Theorem get_gke_metrics_never_raises_once_built (c : construction)
    (metric_name : string) (q : query) (namespace : string) (fr : frame L) :
  new_metric_client c = None ->
  new_time_interval c (interval (fetch_request w q namespace)) = None ->
  new_aggregation c (aggregation_ (fetch_request w q namespace)) = None ->
  exists rows logs,
    Entry.get_gke_metrics c w metric_name q namespace fr
    = (Ok rows,
       Frame (trace fr ++ EvListTimeSeries (fetch_request w q namespace)
                :: logs) (local fr)) /\
    match list_time_series (env w) (trace fr)
            (fetch_request w q namespace) with
    | CallRaises e => rows = [] /\ logs = [error_log INFO e]
    | Returns pg =>
        exists k,
          Forall2 (fun s r => build_row (boot w) metric_name s = Ok r)
            (take k (pager_items pg)) rows /\
          ((k = length (pager_items pg) /\ pager_error pg = None /\
            logs = [EvLog INFO LogBuildingRow])
           \/
           (exists e, stops_at (build_row (boot w) metric_name) pg k e /\
            logs = [EvLog INFO LogBuildingRow; error_log INFO e]))
    end.
Proof.
  intros Hclient Hinterval Haggregation.
  unfold Entry.get_gke_metrics. cbv zeta.
  rewrite Hclient, Hinterval, Haggregation.
  destruct (get_gke_metrics_run w metric_name q namespace fr)
    as (rows & logs & Hrun & Hresp).
  exists rows, logs. split; [| exact Hresp].
  unfold construct, bind, ret. exact Hrun.
Qed.

End FetcherClaims.

Section RowClaims.

Variable st : startup.

(** C2, as amended.  Which bag each identity field is read from is fixed
    by the classification of the metric name, for every series: all three
    from the metric labels in the HPA branch; controller_name and
    controller_type from the resource labels and container_name from the
    metric labels in the VPA branch; controller_name and controller_type
    from the metadata and container_name from the resource labels
    otherwise.  The identity fields of a row are those of its series. *)
Theorem identity_sources_by_branch (metric_name : string) :
  (forall s r,
     build_row st metric_name s = Ok r ->
     identity_of r = identity_fields metric_name s) /\
  match classify metric_name with
  | HpaBranch => single_source MetricLabels metric_name
  | VpaBranch =>
      depends_only_on ResourceLabels controller_part metric_name /\
      depends_only_on MetricLabels container_part metric_name
  | GenericBranch =>
      depends_only_on MetadataLabels controller_part metric_name /\
      depends_only_on ResourceLabels container_part metric_name
  end.
Proof.
  split.
  - intros s r H. by apply build_row_inv in H as (qs & _ & _ & H & _).
  - destruct (classify metric_name) eqn:Hc;
      auto using hpa_single_source, vpa_sources, generic_sources.
Qed.

(** C3, as amended.  A metric name with the lower-case substring "hpa" at
    any position takes the HPA branch, and its rows have the three
    identity fields read from the metric labels and from nothing else (a
    missing label reading as the empty string). *)
Theorem lowercase_hpa_anywhere_takes_hpa_branch (pre suf : string) :
  classify (pre +:+ "hpa" +:+ suf) = HpaBranch /\
  single_source MetricLabels (pre +:+ "hpa" +:+ suf) /\
  (forall s r,
     build_row st (pre +:+ "hpa" +:+ suf) s = Ok r ->
     identity_read_from HpaBranch s r).
Proof.
  assert (classify (pre +:+ "hpa" +:+ suf) = HpaBranch) as Hc
    by (apply classify_hpa; by exists pre, suf).
  split; [done |]. split; [by apply hpa_single_source |].
  intros s r H. rewrite <- Hc. by eapply build_row_identity.
Qed.

(** C4. The value of a point's entry is the double value when that is set
    and not a zero, and otherwise the integer value converted to a double;
    a double value of zero, of either sign, falls through to the integer
    member, which then reads as 0 and gives +0.0. *)
Theorem metric_value_double_or_int (p : point) :
  metric_value (build_point p)
  = match value p with
    | DoubleValue (S754_zero _) => float_of_int (int64_value (value p))
    | DoubleValue d => d
    | v => float_of_int (int64_value v)
    end
  /\ (forall t sign,
        metric_value
          (build_point {| interval_start_time := t;
                          value := DoubleValue (S754_zero sign) |})
        = float_of_int 0)
  /\ float_of_int 0 = S754_zero false.
Proof.
  split; [by rewrite build_point_entry |]. split; [| reflexivity].
  intros t sign. reflexivity.
Qed.

(** C5. The row built from a series with N points has N entries in
    [points_array], in the order of the points; entry [i] carries the
    start time of point [i] rendered down to the microsecond and the value
    given by the double-or-int rule.  For a start time whose year has four
    digits the timestamp has 26 characters, and the microsecond can be
    read back from it. *)
Theorem points_array_mirrors_points (metric_name : string)
    (s : time_series) (r : row) :
  build_row st metric_name s = Ok r ->
  length (points_array r) = length (points s) /\
  (forall i rp,
     points s !! i = Some rp ->
     exists p, rp = Timed p /\ points_array r !! i = Some (entry_of p)) /\
  (forall p,
     datetime_in_range (interval_start_time p) ->
     String.length (metric_timestamp (entry_of p)) = 26%nat) /\
  (forall p1 p2,
     strftime_seconds (interval_start_time p1)
     = strftime_seconds (interval_start_time p2) ->
     (microsecond (interval_start_time p1) < 10 ^ 6)%nat ->
     (microsecond (interval_start_time p2) < 10 ^ 6)%nat ->
     metric_timestamp (entry_of p1) = metric_timestamp (entry_of p2) ->
     microsecond (interval_start_time p1)
     = microsecond (interval_start_time p2)).
Proof.
  intros H. apply build_row_inv in H as (qs & Hqs & Hpoints & _).
  rewrite Hpoints, Hqs.
  split; [by rewrite !length_map |]. split; [| split].
  - intros i rp Hrp. rewrite list_lookup_fmap in Hrp.
    destruct (qs !! i) as [p|] eqn:Hp; [| discriminate].
    injection Hrp as <-. exists p. split; [done |].
    by rewrite list_lookup_fmap, Hp, <- build_point_entry.
  - intros p. apply strftime_micros_length.
  - intros p1 p2. apply strftime_micros_microsecond.
Qed.

End RowClaims.
(** ** Discovery, sink and orchestrator *)

Section Pipeline.

Variable w : world.
Context {L : Type}.

Lemma for_each_app {A} (xs ys : list A) (body : A -> M L unit)
    (fr fr' : frame L) :
  for_each xs body fr = (Ok tt, fr') ->
  for_each (xs ++ ys) body fr = for_each ys body fr'.
Proof.
  revert fr. induction xs as [|x xs IH]; intros fr H; cbn in *.
  - by injection H as ->.
  - unfold bind in *. destruct (body x fr) as [[[]|e] fr1]; [| discriminate].
    by apply IH.
Qed.

Lemma for_each_raises {A} (xs ys : list A) (x : A) (body : A -> M L unit)
    (fr fr1 : frame L) (e : exn) :
  for_each xs body fr = (Ok tt, fr1) ->
  (body x fr1).1 = Raise e ->
  for_each (xs ++ x :: ys) body fr = body x fr1.
Proof.
  intros Hxs Hx. rewrite (for_each_app _ _ _ _ _ Hxs). cbn. unfold bind.
  destruct (body x fr1) as [[[]|e'] fr2]; [discriminate | done].
Qed.

Lemma for_each_add {L0 A} (g : time_series -> A) (add : L0 -> A -> L0)
    (items : list time_series) (t : list event) (acc : L0) :
  for_each items (fun s => modify_local (fun l => add l (g s))) (Frame t acc)
  = (Ok tt, Frame t (foldl add acc (map g items))).
Proof.
  revert acc. induction items as [|s items IH]; intros acc; [reflexivity |].
  cbn [for_each map foldl]. unfold bind at 1, modify_local at 1.
  cbn [trace local]. apply IH.
Qed.

(** What [get_namespaces] does, for every answer of the backend: the loop
    body cannot fail, so the namespaces of all the series the pager yields
    are collected, also when the pager then raises. *)
Lemma get_namespaces_run (fr : frame L) :
  exists found logs,
    get_namespaces w fr
    = (Ok (list_of_set w (list_to_set found)),
       Frame (trace fr ++ EvListTimeSeries (discovery_request w) :: logs)
         (local fr)) /\
    match list_time_series (env w) (trace fr) (discovery_request w) with
    | CallRaises e => found = [] /\ logs = [error_log ERROR e]
    | Returns pg =>
        found = map series_namespace (pager_items pg) /\
        logs = EvLog INFO LogBuildingRow
               :: match pager_error pg with
                  | Some e => [error_log ERROR e]
                  | None => []
                  end
    end.
Proof.
  unfold get_namespaces, call, get_namespaces_body.
  unfold try_except, bind at 1, client_list_time_series.
  cbn [trace local].
  destruct (list_time_series (env w) (trace fr) (discovery_request w))
    as [e|pg].
  - exists [], [error_log ERROR e]. split; [| done].
    unfold error_log, bind, logging, emit, get_local, ret.
    destruct (is_GoogleAPICallError e); cbn [trace local];
      by rewrite <- app_assoc.
  - unfold bind at 1, logging at 1, emit at 1. cbn [trace local].
    exists (map series_namespace (pager_items pg)). eexists.
    split; [| split; reflexivity].
    unfold bind at 1, for_results, bind at 1. cbv zeta.
    rewrite (for_each_add series_namespace
               (fun (namespaces : gset string) ns => namespaces ∪ {[ns]})).
    rewrite foldl_add, (left_id_L ∅ (∪)).
    destruct (pager_error pg) as [e|].
    + unfold raise, error_log, bind, logging, emit, get_local, ret.
      destruct (is_GoogleAPICallError e); cbn [trace local];
        by rewrite <- !app_assoc.
    + unfold ret, bind, get_local. cbn [trace local].
      by rewrite <- app_assoc.
Qed.

(** What [write_to_bigquery] does, for every answer of the warehouse. *)
Lemma write_to_bigquery_run (rows_to_insert : list row) (fr : frame L) :
  write_to_bigquery w rows_to_insert fr
  = let call_ev := EvInsertRowsJson (TABLE_ID (cfg w)) rows_to_insert in
    match insert_rows_json (env w) (trace fr) (TABLE_ID (cfg w))
            rows_to_insert with
    | InsertRaises e => (Raise e, Frame (trace fr ++ [call_ev]) (local fr))
    | InsertReturns [] =>
        (Ok tt,
         Frame (trace fr ++
                  [call_ev;
                   EvLog INFO (LogSuccessfullyWrote (length rows_to_insert)
                                 (TABLE_ID (cfg w)))])
           (local fr))
    | InsertReturns (err :: errs) =>
        (Raise (InsertRowsException (err :: errs)),
         Frame (trace fr ++
                  [call_ev; EvLog ERROR (LogInsertErrors (err :: errs))])
           (local fr))
    end.
Proof.
  unfold write_to_bigquery, bind at 1, client_insert_rows_json.
  cbn [trace local].
  destruct (insert_rows_json (env w) (trace fr) (TABLE_ID (cfg w))
              rows_to_insert) as [e|[|err errs]]; cbn.
  - done.
  - unfold logging, emit. cbn [trace local]. by rewrite <- app_assoc.
  - unfold bind, logging, emit, raise. cbn [trace local].
    by rewrite <- app_assoc.
Qed.

(** One turn of the catalog loop: log, fetch, then sink or skip. *)
Lemma pipeline_step_run (namespace metric_name : string) (q : query)
    (fr : frame L) :
  let fr0 := Frame (trace fr ++ [EvLog INFO (LogRetrieving metric_name namespace)])
               (local fr) in
  exists rows fr1,
    get_gke_metrics w metric_name q namespace fr0 = (Ok rows, fr1) /\
    pipeline_step w namespace (metric_name, q) fr
    = if list_truthy rows then write_to_bigquery w rows fr1
      else (Ok tt,
            Frame (trace fr1 ++ [EvLog INFO (LogUnavailableSkip metric_name)])
              (local fr1)).
Proof.
  intros fr0.
  destruct (get_gke_metrics_run w metric_name q namespace fr0)
    as (rows & logs & Hrun & _).
  eexists rows, _. split; [exact Hrun |].
  unfold pipeline_step. cbn [fst snd].
  unfold bind at 1, logging at 1, emit at 1. fold fr0.
  unfold bind at 1. rewrite Hrun.
  destruct (list_truthy rows); [done |].
  unfold logging, emit. done.
Qed.

End Pipeline.

Section PipelineClaims.

Variable w : world.
Context {L : Type}.

Lemma error_log_not_insert (level : log_level) (e : exn) :
  is_insert (error_log level e) = false.
Proof. unfold error_log. by destruct (is_GoogleAPICallError e). Qed.

Lemma count_inserts_app (t1 t2 : list event) :
  count_inserts (t1 ++ t2) = (count_inserts t1 + count_inserts t2)%nat.
Proof. unfold count_inserts. by rewrite List.filter_app, length_app. Qed.

(** C6, as amended.  Once the client, the interval and the aggregation
    are built, [get_namespaces] does not raise.  It returns, each once, the
    namespaces of the series the pager yielded before any error (a series
    without the label counting as the empty name), and logs the error:
    nothing is returned when the call itself fails, the namespaces
    collected so far when the pager raises later in the iteration. *)
Theorem get_namespaces_returns_collected (c : construction) (fr : frame L) :
  new_metric_client c = None ->
  new_time_interval c (interval (discovery_request w)) = None ->
  new_aggregation c (aggregation_ (discovery_request w)) = None ->
  exists (out : list string) (logs : list event),
    Entry.get_namespaces c w fr
    = (Ok out,
       Frame (trace fr ++ EvListTimeSeries (discovery_request w) :: logs)
         (local fr)) /\
    NoDup out /\
    match list_time_series (env w) (trace fr) (discovery_request w) with
    | CallRaises e => out = [] /\ logs = [error_log ERROR e]
    | Returns pg =>
        (forall ns,
           ns ∈ out <->
           exists s, s ∈ pager_items pg /\
                     ns = default EmptyString
                            (resource_labels s !! "namespace_name")) /\
        logs = EvLog INFO LogBuildingRow
               :: match pager_error pg with
                  | Some e => [error_log ERROR e]
                  | None => []
                  end
    end.
Proof.
  intros Hclient Hinterval Haggregation.
  unfold Entry.get_namespaces.
  rewrite Hclient, Hinterval, Haggregation.
  change (bind (construct None) (fun _ =>
            bind (construct None) (fun _ =>
              bind (construct None) (fun _ => get_namespaces w))) fr)
    with (get_namespaces w fr).
  destruct (get_namespaces_run w fr) as (found & logs & Hrun & Hresp).
  exists (list_of_set w (list_to_set found)), logs.
  pose proof (listing_perm (hash_order w)
                (elements (list_to_set found : gset string))) as Hperm.
  split; [exact Hrun |]. split.
  { unfold list_of_set. rewrite Hperm. apply NoDup_elements. }
  destruct (list_time_series (env w) (trace fr) (discovery_request w))
    as [e|pg].
  - destruct Hresp as [-> ->]. split; [| done].
    unfold list_of_set in *. cbn [list_to_set] in *.
    rewrite elements_empty in Hperm. by apply Permutation_nil_r.
  - destruct Hresp as [-> ->]. split; [| done].
    intros ns. unfold list_of_set. rewrite Hperm, elem_of_elements.
    rewrite elem_of_list_to_set, list_elem_of_fmap.
    split; intros (s & H1 & H2); exists s; done.
Qed.

(** C8, as amended.  Once its client is built, the sink makes one
    insertion call and raises the hard error carrying the warehouse's error
    list when that list is not empty (logging success and returning when it
    is empty).  When the warehouse
    rejects the batch of a catalog entry, that error is what leaves the
    catalog step, [run_pipeline] and the driver loop, with no event after
    the error line: the remaining metrics of the namespace are not
    processed, nor are the namespaces after it, since the driver does not
    catch the error; what was done for the namespaces before it stays
    done. *)
Theorem sink_error_propagates (namespace : string)
    (nss_before nss_after : list string)
    (before after : list (string * query)) (metric_name : string) (q : query)
    (fr_start fr_ns fr_step fr_fetch : frame L) (rows : list row)
    (err : insert_error) (errs : list insert_error) :
  run_namespaces w nss_before fr_start = (Ok tt, fr_ns) ->
  MQL_QUERY (cfg w) = before ++ (metric_name, q) :: after ->
  for_each before (pipeline_step w namespace) fr_ns = (Ok tt, fr_step) ->
  get_gke_metrics w metric_name q namespace
    (Frame (trace fr_step ++ [EvLog INFO (LogRetrieving metric_name namespace)])
       (local fr_step)) = (Ok rows, fr_fetch) ->
  rows <> [] ->
  insert_rows_json (env w) (trace fr_fetch) (TABLE_ID (cfg w)) rows
  = InsertReturns (err :: errs) ->
  (forall (c : construction) rows0 (fr0 : frame L),
     Entry.write_to_bigquery c w rows0 fr0
     = (let call_ev := EvInsertRowsJson (TABLE_ID (cfg w)) rows0 in
        match new_bigquery_client c with
        | Some e' => (Raise e', fr0)
        | None =>
            match insert_rows_json (env w) (trace fr0) (TABLE_ID (cfg w))
                    rows0 with
            | InsertRaises e' =>
                (Raise e', Frame (trace fr0 ++ [call_ev]) (local fr0))
            | InsertReturns [] =>
                (Ok tt,
                 Frame (trace fr0 ++
                          [call_ev;
                           EvLog INFO (LogSuccessfullyWrote (length rows0)
                                         (TABLE_ID (cfg w)))])
                   (local fr0))
            | InsertReturns (err0 :: errs0) =>
                (Raise (InsertRowsException (err0 :: errs0)),
                 Frame (trace fr0 ++
                          [call_ev;
                           EvLog ERROR (LogInsertErrors (err0 :: errs0))])
                   (local fr0))
            end
        end)) /\
  write_to_bigquery w rows fr_fetch = rejected_batch w rows (err :: errs) fr_fetch
  /\
  pipeline_step w namespace (metric_name, q) fr_step
  = rejected_batch w rows (err :: errs) fr_fetch /\
  run_pipeline w namespace fr_ns
  = rejected_batch w rows (err :: errs) fr_fetch /\
  run_namespaces w (nss_before ++ namespace :: nss_after) fr_start
  = rejected_batch w rows (err :: errs) fr_fetch.
Proof.
  intros Hbefore Hcat Hsteps Hfetch Hrows Hreject.
  split.
  { intros c rows0 fr0. unfold Entry.write_to_bigquery, construct, bind.
    destruct (new_bigquery_client c) as [e'|]; [reflexivity |].
    cbn. apply write_to_bigquery_run. }
  assert (write_to_bigquery w rows fr_fetch
          = rejected_batch w rows (err :: errs) fr_fetch) as Hsink.
  { rewrite write_to_bigquery_run. cbv zeta. by rewrite Hreject. }
  split; [exact Hsink |].
  assert (pipeline_step w namespace (metric_name, q) fr_step
          = rejected_batch w rows (err :: errs) fr_fetch) as Hstep.
  { destruct (pipeline_step_run w namespace metric_name q fr_step)
      as (rows' & fr1 & Hrun' & Hstep).
    rewrite Hfetch in Hrun'. injection Hrun' as <- <-.
    rewrite Hstep, <- Hsink. destruct rows; [done | reflexivity]. }
  split; [exact Hstep |].
  assert (run_pipeline w namespace fr_ns
          = rejected_batch w rows (err :: errs) fr_fetch) as Hrun.
  { unfold run_pipeline, bind. rewrite Hcat.
    rewrite (for_each_raises _ _ _ _ _ _
               (InsertRowsException (err :: errs)) Hsteps);
      by rewrite Hstep. }
  split; [exact Hrun |].
  unfold run_namespaces in *.
  rewrite (for_each_raises _ _ _ _ _ _
             (InsertRowsException (err :: errs)) Hbefore);
    by rewrite Hrun.
Qed.

(** C9. A catalog entry whose fetch returns no row is skipped: its step
    makes no insertion call, logs "unavailable" and returns, and
    [run_pipeline] goes on with the entries after it, in catalog order. *)
Theorem empty_fetch_skips_sink (namespace metric_name : string) (q : query)
    (before rest : list (string * query)) (fr_start fr : frame L) :
  MQL_QUERY (cfg w) = before ++ (metric_name, q) :: rest ->
  for_each before (pipeline_step w namespace) fr_start = (Ok tt, fr) ->
  returned_rows
    (get_gke_metrics w metric_name q namespace
       (Frame (trace fr ++ [EvLog INFO (LogRetrieving metric_name namespace)])
          (local fr))) = [] ->
  exists evs,
    Forall (fun ev => is_insert ev = false) evs /\
    last evs = Some (EvLog INFO (LogUnavailableSkip metric_name)) /\
    pipeline_step w namespace (metric_name, q) fr
    = (Ok tt, Frame (trace fr ++ evs) (local fr)) /\
    run_pipeline w namespace fr_start
    = (do! for_each rest (pipeline_step w namespace) in
       logging INFO LogRunCompleted) (Frame (trace fr ++ evs) (local fr)).
Proof.
  intros Hcat Hsteps Hempty.
  set (fr0 := Frame (trace fr ++ [EvLog INFO (LogRetrieving metric_name namespace)])
                (local fr)) in *.
  destruct (get_gke_metrics_run w metric_name q namespace fr0)
    as (rows & logs & Hrun & Hresp).
  unfold returned_rows in Hempty. rewrite Hrun in Hempty. cbn in Hempty.
  subst rows.
  destruct (pipeline_step_run w namespace metric_name q fr)
    as (rows' & fr1 & Hrun' & Hstep).
  fold fr0 in Hrun'. rewrite Hrun in Hrun'. injection Hrun' as <- <-.
  cbn [list_truthy trace local fr0] in Hstep.
  set (evs := EvLog INFO (LogRetrieving metric_name namespace)
              :: EvListTimeSeries (fetch_request w q namespace)
              :: logs ++ [EvLog INFO (LogUnavailableSkip metric_name)]).
  assert (pipeline_step w namespace (metric_name, q) fr
          = (Ok tt, Frame (trace fr ++ evs) (local fr))) as Hstep'.
  { rewrite Hstep. subst evs. do 2 f_equal.
    rewrite <- !app_assoc. cbn [app]. done. }
  exists evs. split; [| split; [| split; [exact Hstep' |]]].
  - subst evs. do 2 (constructor; [done |]).
    apply Forall_app. split; [| by repeat constructor].
    destruct (list_time_series (env w) (trace fr0)
                (fetch_request w q namespace)) as [e|pg].
    + destruct Hresp as [_ ->].
      repeat constructor; apply error_log_not_insert.
    + destruct Hresp as (k & _ & [(_ & _ & ->) | (e & _ & ->)]);
        repeat constructor; apply error_log_not_insert.
  - subst evs. rewrite !app_comm_cons. apply last_snoc.
  - unfold run_pipeline. rewrite Hcat. unfold bind at 1 2.
    rewrite (for_each_app _ _ _ _ _ Hsteps). cbn [for_each].
    unfold bind at 1. by rewrite Hstep'.
Qed.

(** C10. The filter of the fetch request, which is the request the call
    to [list_time_series] receives, is the metric identifier between two
    double quotes followed by the namespace as it is: the only double
    quotes added are the two around the metric identifier, and the
    namespace ends the filter right after a space. *)
Theorem fetch_filter_namespace_unquoted (metric_name : string) (q : query)
    (namespace : string) (fr : frame L) :
  let req := fetch_request w q namespace in
  (exists rows logs,
     get_gke_metrics w metric_name q namespace fr
     = (Ok rows, Frame (trace fr ++ EvListTimeSeries req :: logs) (local fr)))
  /\ filter req
     = "metric.type = " +:+ dquote +:+ metric q +:+ dquote +:+
       " AND resource.label.namespace_name = " +:+ namespace
  /\ count_char dquote_char (filter req)
     = (2 + count_char dquote_char (metric q)
        + count_char dquote_char namespace)%nat
  /\ (exists pre,
        filter req = pre +:+ " " +:+ namespace /\
        count_char dquote_char pre
        = (2 + count_char dquote_char (metric q))%nat).
Proof.
  intros req. split.
  { destruct (get_gke_metrics_run w metric_name q namespace fr)
      as (rows & logs & Hrun & _). by exists rows, logs. }
  split; [reflexivity |]. split.
  - cbn [req fetch_request filter]. unfold fetch_filter.
    rewrite !count_char_append. cbn. lia.
  - exists ("metric.type = " +:+ dquote +:+ metric q +:+ dquote +:+
            " AND resource.label.namespace_name ="). split.
    + cbn [req fetch_request filter]. unfold fetch_filter.
      rewrite !append_assoc. reflexivity.
    + rewrite !count_char_append. cbn. lia.
Qed.

End PipelineClaims.

(** ** The scenarios, checked *)

Section Checked.

Import Scenario.

Example float_of_int_one :
  float_of_int 1 = S754_finite false 4503599627370496 (-52).
Proof. reflexivity. Qed.

Example scenario_A_row :
  build_row boot0 vpa_name billing_series = Ok row_A.
Proof. vm_compute. reflexivity. Qed.

(** C2, the claim as stated fails: for a VPA metric no single bag
    determines the three identity fields, since controller_name follows the
    resource labels and container_name the metric labels. *)
Lemma vpa_rows_mix_label_bags :
  ~ exists b, single_source b vpa_name.
Proof.
  intros [b H]. destruct b.
  - assert (Hr := H billing_series other_resource eq_refl).
    vm_compute in Hr. discriminate.
  - assert (Hr := H billing_series other_metric eq_refl).
    vm_compute in Hr. discriminate.
  - assert (Hr := H billing_series other_metric eq_refl).
    vm_compute in Hr. discriminate.
Qed.

(** C3, the claim as stated fails: a name with "HPA" in upper case contains
    "hpa" up to case, yet takes the generic branch, and its identity fields
    do not come from the metric labels. *)
Lemma uppercase_hpa_takes_generic_branch :
  str_in "hpa" (lower upper_name) = true /\
  classify upper_name = GenericBranch /\
  ~ single_source MetricLabels upper_name.
Proof.
  split; [reflexivity |]. split; [reflexivity |].
  intros H.
  assert (Hr := H billing_series other_metadata eq_refl).
  vm_compute in Hr. discriminate.
Qed.

(** C6, the claim as stated fails: the pager yields one series and then
    raises; the result is that series' namespace, not the empty list. *)
Lemma discovery_error_keeps_collected_namespaces :
  discovery_fails world_partial [] /\
  (run (Entry.get_namespaces construction_ok world_partial) []).1
  = Ok ["billing"] /\
  (run (Entry.get_namespaces construction_ok world_partial) []).1 <> Ok [].
Proof.
  split.
  - by eexists.
  - split; [vm_compute; reflexivity | vm_compute; discriminate].
Qed.

(** The partial pager instantiates C6. *)
Lemma get_namespaces_returns_collected_witness :
  (new_metric_client construction_ok = None /\
   new_time_interval construction_ok
     (interval (discovery_request world_partial)) = None /\
   new_aggregation construction_ok
     (aggregation_ (discovery_request world_partial)) = None) /\
  (exists (out : list string) (logs : list event),
     Entry.get_namespaces construction_ok world_partial frame0
     = (Ok out,
        Frame (trace frame0 ++
                 EvListTimeSeries (discovery_request world_partial) :: logs)
          (local frame0)) /\
     NoDup out /\
     match list_time_series (env world_partial) (trace frame0)
             (discovery_request world_partial) with
     | CallRaises e => out = [] /\ logs = [error_log ERROR e]
     | Returns pg =>
         (forall ns,
            ns ∈ out <->
            exists s, s ∈ pager_items pg /\
                      ns = default EmptyString
                             (resource_labels s !! "namespace_name")) /\
         logs = EvLog INFO LogBuildingRow
                :: match pager_error pg with
                   | Some e => [error_log ERROR e]
                   | None => []
                   end
     end).
Proof.
  assert (new_metric_client construction_ok = None) as H1 by reflexivity.
  assert (new_time_interval construction_ok
            (interval (discovery_request world_partial)) = None)
    as H2 by reflexivity.
  assert (new_aggregation construction_ok
            (aggregation_ (discovery_request world_partial)) = None)
    as H3 by reflexivity.
  exact (conj (conj H1 (conj H2 H3))
           (get_namespaces_returns_collected world_partial construction_ok
              frame0 H1 H2 H3)).
Defined.

(** C7, the claim as stated fails: without credentials the client
    cannot be built, and the exception leaves [get_gke_metrics] before its
    [try] is entered. *)
Lemma construction_error_leaves_get_gke_metrics :
  Entry.get_gke_metrics construction_without_credentials world_A vpa_name
    descriptor "billing" frame0
  = (Raise no_credentials, frame0).
Proof. reflexivity. Qed.

(** C8, the claim as stated fails: two namespaces are discovered; the sink
    error met in the first one listed ends the whole run, and the pipeline
    of the other namespace is never started, whichever of the two the
    process lists first. *)
Lemma sink_error_stops_later_namespaces :
  ((run (get_namespaces world_rejecting) []).1 = Ok ["checkout"; "billing"] /\
   (run (main world_rejecting) []).1 = Raise (InsertRowsException rejected) /\
   pipeline_started "checkout" (run (main world_rejecting) []).2 /\
   ~ pipeline_started "billing" (run (main world_rejecting) []).2) /\
  ((run (get_namespaces world_rejecting_other_seed) []).1
   = Ok ["billing"; "checkout"] /\
   (run (main world_rejecting_other_seed) []).1
   = Raise (InsertRowsException rejected) /\
   pipeline_started "billing" (run (main world_rejecting_other_seed) []).2 /\
   ~ pipeline_started "checkout" (run (main world_rejecting_other_seed) []).2).
Proof.
  split.
  - split; [vm_compute; reflexivity |]. split; [vm_compute; reflexivity |].
    split.
    + exists vpa_name. vm_compute. do 2 right. left.
    + intros [metric_name Hin]. vm_compute in Hin.
      repeat (apply elem_of_cons in Hin as [Hin|Hin]; [discriminate Hin |]).
      by apply elem_of_nil in Hin.
  - split; [vm_compute; reflexivity |]. split; [vm_compute; reflexivity |].
    split.
    + exists vpa_name. vm_compute. do 2 right. left.
    + intros [metric_name Hin]. vm_compute in Hin.
      repeat (apply elem_of_cons in Hin as [Hin|Hin]; [discriminate Hin |]).
      by apply elem_of_nil in Hin.
Qed.

(** Scenario A instantiates C1: the one row fetched for the VPA metric. *)
Lemma identity_fields_follow_classification_witness :
  returned_rows
    (get_gke_metrics world_A vpa_name descriptor "billing" frame0)
  !! 0%nat = Some row_A /\
  ((exists pg s,
      list_time_series (env world_A) (trace frame0)
        (fetch_request world_A descriptor "billing") = Returns pg /\
      pager_items pg !! 0%nat = Some s /\
      build_row (boot world_A) vpa_name s = Ok row_A /\
      identity_read_from (classify vpa_name) s row_A) /\
   (classify vpa_name = HpaBranch <-> occurs_in "hpa" vpa_name) /\
   (classify vpa_name = VpaBranch <->
    ~ occurs_in "hpa" vpa_name /\ occurs_in "vpa" vpa_name) /\
   (classify vpa_name = GenericBranch <->
    ~ occurs_in "hpa" vpa_name /\ ~ occurs_in "vpa" vpa_name)).
Proof.
  assert (returned_rows
            (get_gke_metrics world_A vpa_name descriptor "billing" frame0)
          !! 0%nat = Some row_A) as H
    by (vm_compute; reflexivity).
  exact (conj H
           (identity_fields_follow_classification world_A vpa_name descriptor
              "billing" frame0 0 row_A H)).
Defined.

(** Scenario A instantiates C5: two points, two entries. *)
Lemma points_array_mirrors_points_witness :
  build_row boot0 vpa_name billing_series = Ok row_A /\
  (length (points_array row_A) = length (points billing_series) /\
   (forall i rp,
      points billing_series !! i = Some rp ->
      exists p, rp = Timed p /\ points_array row_A !! i = Some (entry_of p))
   /\
   (forall p,
      datetime_in_range (interval_start_time p) ->
      String.length (metric_timestamp (entry_of p)) = 26%nat) /\
   (forall p1 p2,
      strftime_seconds (interval_start_time p1)
      = strftime_seconds (interval_start_time p2) ->
      (microsecond (interval_start_time p1) < 10 ^ 6)%nat ->
      (microsecond (interval_start_time p2) < 10 ^ 6)%nat ->
      metric_timestamp (entry_of p1) = metric_timestamp (entry_of p2) ->
      microsecond (interval_start_time p1)
      = microsecond (interval_start_time p2))).
Proof.
  assert (build_row boot0 vpa_name billing_series = Ok row_A) as H
    by (vm_compute; reflexivity).
  exact (conj H
           (points_array_mirrors_points boot0 vpa_name billing_series row_A H)).
Defined.

(** Scenario A, with every constructor returning, instantiates C7. *)
Lemma get_gke_metrics_never_raises_once_built_witness :
  (new_metric_client construction_ok = None /\
   new_time_interval construction_ok
     (interval (fetch_request world_A descriptor "billing")) = None /\
   new_aggregation construction_ok
     (aggregation_ (fetch_request world_A descriptor "billing")) = None) /\
  (exists rows logs,
     Entry.get_gke_metrics construction_ok world_A vpa_name descriptor
       "billing" frame0
     = (Ok rows,
        Frame (trace frame0 ++
                 EvListTimeSeries (fetch_request world_A descriptor "billing")
                 :: logs) (local frame0)) /\
     match list_time_series (env world_A) (trace frame0)
             (fetch_request world_A descriptor "billing") with
     | CallRaises e => rows = [] /\ logs = [error_log INFO e]
     | Returns pg =>
         exists k,
           Forall2 (fun s r => build_row (boot world_A) vpa_name s = Ok r)
             (take k (pager_items pg)) rows /\
           ((k = length (pager_items pg) /\ pager_error pg = None /\
             logs = [EvLog INFO LogBuildingRow])
            \/
            (exists e, stops_at (build_row (boot world_A) vpa_name) pg k e /\
             logs = [EvLog INFO LogBuildingRow; error_log INFO e]))
     end).
Proof.
  assert (new_metric_client construction_ok = None) as H1 by reflexivity.
  assert (new_time_interval construction_ok
            (interval (fetch_request world_A descriptor "billing")) = None)
    as H2 by reflexivity.
  assert (new_aggregation construction_ok
            (aggregation_ (fetch_request world_A descriptor "billing"))
          = None) as H3 by reflexivity.
  exact (conj (conj H1 (conj H2 H3))
           (get_gke_metrics_never_raises_once_built world_A construction_ok
              vpa_name descriptor "billing" frame0 H1 H2 H3)).
Defined.

(** The staged run instantiates C8: the warehouse rejects the batch of the
    second catalog entry of the second namespace; the third entry and the
    third namespace are not processed. *)
Lemma sink_error_propagates_witness :
  (run_namespaces world_staged ["alpha"] frame0 = (Ok tt, staged_ns_frame) /\
   MQL_QUERY (cfg world_staged)
   = [(memory_name, descriptor)] ++ (vpa_name, descriptor)
       :: [(cpu_name, descriptor)] /\
   for_each [(memory_name, descriptor)] (pipeline_step world_staged "billing")
     staged_ns_frame = (Ok tt, staged_step_frame) /\
   get_gke_metrics world_staged vpa_name descriptor "billing"
     (Frame (trace staged_step_frame ++
               [EvLog INFO (LogRetrieving vpa_name "billing")])
        (local staged_step_frame)) = (Ok [row_A], staged_fetch_frame) /\
   [row_A] <> [] /\
   insert_rows_json (env world_staged) (trace staged_fetch_frame)
     (TABLE_ID (cfg world_staged)) [row_A] = InsertReturns (invalid_row :: []))
  /\
  ((forall (c : construction) rows0 (fr0 : frame unit),
      Entry.write_to_bigquery c world_staged rows0 fr0
      = (let call_ev :=
           EvInsertRowsJson (TABLE_ID (cfg world_staged)) rows0 in
         match new_bigquery_client c with
         | Some e' => (Raise e', fr0)
         | None =>
             match insert_rows_json (env world_staged) (trace fr0)
                     (TABLE_ID (cfg world_staged)) rows0 with
             | InsertRaises e' =>
                 (Raise e', Frame (trace fr0 ++ [call_ev]) (local fr0))
             | InsertReturns [] =>
                 (Ok tt,
                  Frame (trace fr0 ++
                           [call_ev;
                            EvLog INFO (LogSuccessfullyWrote (length rows0)
                                          (TABLE_ID (cfg world_staged)))])
                    (local fr0))
             | InsertReturns (err0 :: errs0) =>
                 (Raise (InsertRowsException (err0 :: errs0)),
                  Frame (trace fr0 ++
                           [call_ev;
                            EvLog ERROR (LogInsertErrors (err0 :: errs0))])
                    (local fr0))
             end
         end)) /\
   write_to_bigquery world_staged [row_A] staged_fetch_frame
   = rejected_batch world_staged [row_A] [invalid_row] staged_fetch_frame /\
   pipeline_step world_staged "billing" (vpa_name, descriptor)
     staged_step_frame
   = rejected_batch world_staged [row_A] [invalid_row] staged_fetch_frame /\
   run_pipeline world_staged "billing" staged_ns_frame
   = rejected_batch world_staged [row_A] [invalid_row] staged_fetch_frame /\
   run_namespaces world_staged (["alpha"] ++ "billing" :: ["checkout"]) frame0
   = rejected_batch world_staged [row_A] [invalid_row] staged_fetch_frame).
Proof.
  assert (run_namespaces world_staged ["alpha"] frame0
          = (Ok tt, staged_ns_frame)) as H1 by (vm_compute; reflexivity).
  assert (MQL_QUERY (cfg world_staged)
          = [(memory_name, descriptor)] ++ (vpa_name, descriptor)
              :: [(cpu_name, descriptor)]) as H2 by reflexivity.
  assert (for_each [(memory_name, descriptor)]
            (pipeline_step world_staged "billing") staged_ns_frame
          = (Ok tt, staged_step_frame)) as H3 by (vm_compute; reflexivity).
  assert (get_gke_metrics world_staged vpa_name descriptor "billing"
            (Frame (trace staged_step_frame ++
                      [EvLog INFO (LogRetrieving vpa_name "billing")])
               (local staged_step_frame)) = (Ok [row_A], staged_fetch_frame))
    as H4 by (vm_compute; reflexivity).
  assert ([row_A] <> []) as H5 by discriminate.
  assert (insert_rows_json (env world_staged) (trace staged_fetch_frame)
            (TABLE_ID (cfg world_staged)) [row_A]
          = InsertReturns (invalid_row :: [])) as H6
    by (vm_compute; reflexivity).
  exact (conj (conj H1 (conj H2 (conj H3 (conj H4 (conj H5 H6)))))
           (sink_error_propagates world_staged "billing" ["alpha"]
              ["checkout"] [(memory_name, descriptor)]
              [(cpu_name, descriptor)] vpa_name descriptor frame0
              staged_ns_frame staged_step_frame staged_fetch_frame [row_A]
              invalid_row [] H1 H2 H3 H4 H5 H6)).
Defined.

(** The sparse backend instantiates C9: nothing for the first entry, so
    the loop goes on with the second. *)
Lemma empty_fetch_skips_sink_witness :
  (MQL_QUERY (cfg world_sparse) = [] ++ (memory_name, descriptor) :: [vpa_entry]
   /\
   for_each [] (pipeline_step world_sparse "billing") frame0 = (Ok tt, frame0)
   /\
   returned_rows
     (get_gke_metrics world_sparse memory_name descriptor "billing"
        (Frame (trace frame0 ++
                  [EvLog INFO (LogRetrieving memory_name "billing")])
           (local frame0))) = []) /\
  (exists evs,
     Forall (fun ev => is_insert ev = false) evs /\
     last evs = Some (EvLog INFO (LogUnavailableSkip memory_name)) /\
     pipeline_step world_sparse "billing" (memory_name, descriptor) frame0
     = (Ok tt, Frame (trace frame0 ++ evs) (local frame0)) /\
     run_pipeline world_sparse "billing" frame0
     = (do! for_each [vpa_entry] (pipeline_step world_sparse "billing") in
        logging INFO LogRunCompleted)
         (Frame (trace frame0 ++ evs) (local frame0))).
Proof.
  assert (MQL_QUERY (cfg world_sparse)
          = [] ++ (memory_name, descriptor) :: [vpa_entry]) as H1
    by reflexivity.
  assert (for_each [] (pipeline_step world_sparse "billing") frame0
          = (Ok tt, frame0)) as H2 by reflexivity.
  assert (returned_rows
            (get_gke_metrics world_sparse memory_name descriptor "billing"
               (Frame (trace frame0 ++
                         [EvLog INFO (LogRetrieving memory_name "billing")])
                  (local frame0))) = []) as H3
    by (vm_compute; reflexivity).
  exact (conj (conj H1 (conj H2 H3))
           (empty_fetch_skips_sink world_sparse "billing" memory_name
              descriptor [] [vpa_entry] frame0 frame0 H1 H2 H3)).
Defined.

End Checked.

(** * Further properties *)

(** ** Rows, labels and start times *)

Section RowLabels.

Variable st : startup.


(** X2. Building a row raises nothing but the [AttributeError] of calling
    [strftime] on an unset start time, and then some point of the series
    has no start time. *)
Theorem build_row_raises_only_attribute_error (metric_name : string)
    (s : time_series) (e : exn) :
  build_row st metric_name s = Raise e ->
  e = no_strftime /\ exists v, Untimed v ∈ points s.
Proof. apply build_row_raise_inv. Qed.

Lemma all_rows_built (metric_name : string) (items : list time_series) :
  Forall all_timed items ->
  exists rows,
    Forall2 (fun s r => build_row st metric_name s = Ok r) items rows.
Proof.
  induction 1 as [|s items Hs _ [rows IH]].
  - exists []. constructor.
  - apply (build_row_ok_iff st metric_name) in Hs as [r Hr].
    exists (r :: rows). by constructor.
Qed.

End RowLabels.

(** ** Fetches, whole and cut short *)

Section FetchShapes.

Variable w : world.
Context {L : Type}.

(** [get_gke_metrics] on an answered call, in terms of the loop. *)
Lemma get_gke_metrics_answered (metric_name : string) (q : query)
    (namespace : string) (fr : frame L) (pg : pager) :
  list_time_series (env w) (trace fr) (fetch_request w q namespace)
  = Returns pg ->
  get_gke_metrics w metric_name q namespace fr
  = match for_results pg
            (collect (build_row (boot w) metric_name)
               (fun rows r => rows ++ [r]))
            (Frame (trace fr ++
                      [EvListTimeSeries (fetch_request w q namespace);
                       EvLog INFO LogBuildingRow]) []) with
    | (Ok _, fr') => (Ok (local fr'), Frame (trace fr') (local fr))
    | (Raise e, fr') =>
        (Ok (local fr'), Frame (trace fr' ++ [error_log INFO e]) (local fr))
    end.
Proof.
  intros Hresp.
  unfold get_gke_metrics, call, get_gke_metrics_body.
  unfold bind at 1, try_except, bind at 1, client_list_time_series.
  cbn [trace local]. rewrite Hresp.
  unfold bind at 1, logging at 1, emit at 1. cbn [trace local].
  rewrite <- app_assoc. cbn [app]. unfold collect.
  match goal with
  | |- context [for_results pg ?body ?fr0] =>
      destruct (for_results pg body fr0) as [[[]|e] fr']
  end.
  - reflexivity.
  - unfold error_log, logging, emit, get_local.
    by destruct (is_GoogleAPICallError e).
Qed.

Lemma returned_row_origin (metric_name : string) (q : query)
    (namespace : string) (fr : frame L) (i : nat) (r : row) :
  returned_rows (get_gke_metrics w metric_name q namespace fr) !! i
  = Some r ->
  exists pg s,
    list_time_series (env w) (trace fr) (fetch_request w q namespace)
    = Returns pg /\
    pager_items pg !! i = Some s /\
    build_row (boot w) metric_name s = Ok r.
Proof.
  intros Hi.
  destruct (get_gke_metrics_run w metric_name q namespace fr)
    as (rows & logs & Hrun & Hresp).
  unfold returned_rows in Hi. rewrite Hrun in Hi. cbn in Hi.
  destruct (list_time_series (env w) (trace fr)
              (fetch_request w q namespace)) as [e|pg].
  - destruct Hresp as [-> _]. discriminate.
  - destruct Hresp as (k & Hrows & _).
    destruct (Forall2_lookup_r _ _ _ _ _ Hrows Hi) as (s & Hs & Hbuild).
    apply lookup_take_Some in Hs as [Hs _]. by exists pg, s.
Qed.

(** X3. A point without start time cuts the fetch short: the rows of the
    series before its series are returned, the series after it are never
    looked at, and the [AttributeError] is logged as an unexpected
    error. *)
Theorem untimed_point_truncates_fetch (metric_name : string) (q : query)
    (namespace : string) (fr : frame L) (pg : pager)
    (good later : list time_series) (bad : time_series) (rows : list row)
    (v : typed_value) :
  list_time_series (env w) (trace fr) (fetch_request w q namespace)
  = Returns pg ->
  pager_items pg = good ++ bad :: later ->
  Forall2 (fun s r => build_row (boot w) metric_name s = Ok r) good rows ->
  Untimed v ∈ points bad ->
  get_gke_metrics w metric_name q namespace fr
  = (Ok rows,
     Frame (trace fr ++
              [EvListTimeSeries (fetch_request w q namespace);
               EvLog INFO LogBuildingRow;
               EvLog INFO (LogUnexpectedError no_strftime)]) (local fr)).
Proof.
  intros Hresp Hitems Hgood Hbad.
  assert (build_row (boot w) metric_name bad = Raise no_strftime) as Hraise.
  { destruct (build_row_cases (boot w) metric_name bad)
      as [(qs & Hqs & _) | (Hr & _)]; [| exact Hr].
    rewrite Hqs in Hbad. apply list_elem_of_fmap in Hbad as (p & Hp & _).
    discriminate Hp. }
  rewrite (get_gke_metrics_answered _ _ _ _ _ Hresp).
  unfold for_results, bind. rewrite Hitems.
  rewrite (for_each_collect_stops _ _ _ _ _ _ no_strftime _ _ Hgood Hraise).
  rewrite foldl_snoc. cbn [app trace local].
  unfold error_log. cbn. by rewrite <- app_assoc.
Qed.

(** X5. When the pager raises nothing and every point of every series has
    its start time, the fetch returns one row per series, in order, and
    logs no error, whatever labels the series carry. *)
Theorem complete_fetch_one_row_per_series (metric_name : string) (q : query)
    (namespace : string) (fr : frame L) (pg : pager) :
  list_time_series (env w) (trace fr) (fetch_request w q namespace)
  = Returns pg ->
  pager_error pg = None ->
  Forall all_timed (pager_items pg) ->
  exists rows,
    get_gke_metrics w metric_name q namespace fr
    = (Ok rows,
       Frame (trace fr ++
                [EvListTimeSeries (fetch_request w q namespace);
                 EvLog INFO LogBuildingRow]) (local fr)) /\
    length rows = length (pager_items pg) /\
    Forall2 (fun s r => build_row (boot w) metric_name s = Ok r)
      (pager_items pg) rows.
Proof.
  intros Hresp Herr Hall.
  destruct (all_rows_built (boot w) metric_name _ Hall) as [rows Hrows].
  exists rows. split; [| split; [symmetry; by eapply Forall2_length | done]].
  rewrite (get_gke_metrics_answered _ _ _ _ _ Hresp).
  unfold for_results, bind.
  rewrite (for_each_collect_all _ _ _ _ _ _ Hrows), Herr.
  unfold ret. by rewrite foldl_snoc.
Qed.

(** X4. Every row of a fetch carries the metric name of the fetch and the
    one run date fixed at start-up, and its project, location, cluster and
    namespace are the resource labels of its series, whatever the branch,
    a label the series lacks reading as the empty string. *)
Theorem fetched_rows_share_run_fields (metric_name : string) (q : query)
    (namespace : string) (fr : frame L) (i : nat) (r : row) :
  returned_rows (get_gke_metrics w metric_name q namespace fr) !! i
  = Some r ->
  metric_name_ r = metric_name /\
  run_date_ r = strftime_seconds (run_date (boot w)) /\
  exists pg s,
    list_time_series (env w) (trace fr) (fetch_request w q namespace)
    = Returns pg /\
    pager_items pg !! i = Some s /\
    project_id r = default EmptyString (resource_labels s !! "project_id") /\
    location r = default EmptyString (resource_labels s !! "location") /\
    cluster_name r
    = default EmptyString (resource_labels s !! "cluster_name") /\
    namespace_name r
    = default EmptyString (resource_labels s !! "namespace_name").
Proof.
  intros Hi.
  destruct (returned_row_origin _ _ _ _ _ _ Hi) as (pg & s & Hresp & Hs & Hr).
  destruct (build_row_inv _ _ _ _ Hr)
    as (qs & _ & _ & _ & Hname & Hdate & Hp & Hl & Hc & Hn).
  split; [done |]. split; [done |]. by exists pg, s.
Qed.

End FetchShapes.

(** ** The shape of a run *)

Section RunShape.

Variable w : world.
Context {L : Type}.

Lemma count_list_calls_app (t1 t2 : list event) :
  count_list_calls (t1 ++ t2)
  = (count_list_calls t1 + count_list_calls t2)%nat.
Proof. unfold count_list_calls. by rewrite List.filter_app, length_app. Qed.

Lemma fetch_logs_count (logs : list event) :
  Forall (fun ev => is_fetch_log ev = true) logs ->
  count_list_calls logs = 0%nat /\ count_inserts logs = 0%nat.
Proof.
  induction 1 as [|ev logs Hev _ [IH1 IH2]]; [done |].
  destruct ev as [| |lvl []]; try discriminate Hev;
    unfold count_list_calls, count_inserts in *; cbn; done.
Qed.

Lemma fetch_logs_events (namespace : string) (logs : list event) :
  Forall (fun ev => is_fetch_log ev = true) logs ->
  Forall (pipeline_event w namespace) logs.
Proof.
  intros H. eapply Forall_impl; [exact H |]. intros ev Hev.
  destruct ev as [| |lvl []]; try discriminate Hev; exact I.
Qed.

Lemma error_log_is_fetch_log (level : log_level) (e : exn) :
  is_fetch_log (error_log level e) = true.
Proof. unfold error_log. by destruct (is_GoogleAPICallError e). Qed.

(** A fetch, summarised: it returns rows of its metric and appends the
    call and log lines. *)
Lemma get_gke_metrics_summary (metric_name : string) (q : query)
    (namespace : string) (fr : frame L) :
  exists rows logs,
    get_gke_metrics w metric_name q namespace fr
    = (Ok rows,
       Frame (trace fr ++ EvListTimeSeries (fetch_request w q namespace)
                :: logs) (local fr)) /\
    Forall (fun ev => is_fetch_log ev = true) logs /\
    Forall (fun r => metric_name_ r = metric_name) rows.
Proof.
  destruct (get_gke_metrics_run w metric_name q namespace fr)
    as (rows & logs & Hrun & Hresp).
  exists rows, logs. split; [exact Hrun |].
  destruct (list_time_series (env w) (trace fr)
              (fetch_request w q namespace)) as [e|pg].
  - destruct Hresp as [-> ->]. split; [| constructor].
    repeat constructor. apply error_log_is_fetch_log.
  - destruct Hresp as (k & Hrows & Hlogs). split.
    + destruct Hlogs as [(_ & _ & ->) | (e & _ & ->)];
        repeat constructor; apply error_log_is_fetch_log.
    + clear Hlogs Hrun. induction Hrows as [|s r ss rs Hr _ IH];
        constructor; [| exact IH].
      by apply build_row_inv in Hr as (qs & _ & _ & _ & Hname & _).
Qed.

Ltac events_ok :=
  repeat (apply Forall_cons_2; [first [assumption | exact I] |]);
  apply Forall_nil_2.

(** One catalog step, summarised. *)
Lemma pipeline_step_shape (namespace : string) (entry : string * query)
    (fr : frame L) :
  entry ∈ MQL_QUERY (cfg w) ->
  exists evs,
    (pipeline_step w namespace entry fr).2
    = Frame (trace fr ++ evs) (local fr) /\
    Forall (pipeline_event w namespace) evs /\
    count_list_calls evs = 1%nat /\
    (count_inserts evs <= 1)%nat /\
    (forall e, (pipeline_step w namespace entry fr).1 = Raise e ->
               sink_failure w e).
Proof.
  intros Hin. destruct entry as [metric_name q].
  set (fr0 := Frame (trace fr ++
                       [EvLog INFO (LogRetrieving metric_name namespace)])
                (local fr)).
  destruct (get_gke_metrics_summary metric_name q namespace fr0)
    as (rows & logs & Hrun & Hlogs & Hrows).
  destruct (pipeline_step_run w namespace metric_name q fr)
    as (rows' & fr1 & Hrun' & Hstep).
  fold fr0 in Hrun'. rewrite Hrun in Hrun'. injection Hrun' as <- <-.
  destruct (fetch_logs_count _ Hlogs) as [Hl0 Hi0].
  pose proof (fetch_logs_events namespace _ Hlogs) as Hlev.
  assert (pipeline_event w namespace
            (EvLog INFO (LogRetrieving metric_name namespace))) as Hretr.
  { split; [done |]. by exists (metric_name, q). }
  assert (pipeline_event w namespace
            (EvListTimeSeries (fetch_request w q namespace))) as Hcall.
  { by exists (metric_name, q). }
  set (head := EvLog INFO (LogRetrieving metric_name namespace)
               :: EvListTimeSeries (fetch_request w q namespace) :: logs).
  assert (forall tail,
            (trace fr ++ [EvLog INFO (LogRetrieving metric_name namespace)])
              ++ EvListTimeSeries (fetch_request w q namespace) :: logs
              ++ tail
            = trace fr ++ head ++ tail) as Happ.
  { intros tail. subst head. rewrite <- !app_assoc. reflexivity. }
  assert (forall tail,
            Forall (pipeline_event w namespace) tail ->
            Forall (pipeline_event w namespace) (head ++ tail)) as Hev.
  { intros tail Ht. subst head. apply Forall_app. split; [| done].
    by repeat (constructor; [done |]). }
  assert (forall tail,
            count_list_calls (head ++ tail) = S (count_list_calls tail) /\
            count_inserts (head ++ tail) = count_inserts tail) as Hcount.
  { intros tail. subst head.
    rewrite count_list_calls_app, count_inserts_app.
    change (count_list_calls (?a :: ?b :: logs))
      with (S (count_list_calls logs)).
    change (count_inserts (?a :: ?b :: logs)) with (count_inserts logs).
    rewrite Hl0, Hi0. done. }
  destruct rows as [|r rows]; cbn [list_truthy] in Hstep.
  - exists (head ++ [EvLog INFO (LogUnavailableSkip metric_name)]).
    rewrite Hstep. cbn [fst snd trace local fr0].
    split; [by rewrite <- Happ, <- !app_assoc |].
    split; [apply Hev; events_ok |].
    destruct (Hcount [EvLog INFO (LogUnavailableSkip metric_name)])
      as [-> ->].
    split; [done |]. split; [cbn; lia | discriminate].
  - rewrite write_to_bigquery_run in Hstep. cbv zeta in Hstep.
    cbn [trace local fr0] in Hstep.
    set (batch := r :: rows) in *.
    set (t1 := (trace fr ++
                  [EvLog INFO (LogRetrieving metric_name namespace)])
                 ++ EvListTimeSeries (fetch_request w q namespace) :: logs)
      in *.
    assert (pipeline_event w namespace
              (EvInsertRowsJson (TABLE_ID (cfg w)) batch)) as Hins.
    { split; [done |]. split; [done |]. by exists (metric_name, q). }
    destruct (insert_rows_json (env w) t1 (TABLE_ID (cfg w)) batch)
      as [e'|[|err errs]] eqn:Hresp; rewrite Hstep; cbn [fst snd].
    + exists (head ++ [EvInsertRowsJson (TABLE_ID (cfg w)) batch]).
      split; [subst t1; by rewrite <- Happ, <- !app_assoc |].
      split; [apply Hev; events_ok |].
      destruct (Hcount [EvInsertRowsJson (TABLE_ID (cfg w)) batch])
        as [-> ->].
      split; [done |]. split; [cbn; lia |].
      intros e [= <-]. exists t1, batch. split; [done |]. by rewrite Hresp.
    + exists (head ++ [EvInsertRowsJson (TABLE_ID (cfg w)) batch;
                       EvLog INFO (LogSuccessfullyWrote (length batch)
                                     (TABLE_ID (cfg w)))]).
      split; [subst t1; by rewrite <- Happ, <- !app_assoc |].
      split; [apply Hev; events_ok |].
      match goal with
      | |- context [head ++ ?tail] => destruct (Hcount tail) as [-> ->]
      end.
      split; [done |]. split; [cbn; lia | discriminate].
    + exists (head ++ [EvInsertRowsJson (TABLE_ID (cfg w)) batch;
                       EvLog ERROR (LogInsertErrors (err :: errs))]).
      split; [subst t1; by rewrite <- Happ, <- !app_assoc |].
      split; [apply Hev; events_ok |].
      match goal with
      | |- context [head ++ ?tail] => destruct (Hcount tail) as [-> ->]
      end.
      split; [done |]. split; [cbn; lia |].
      intros e [= <-]. exists t1, batch. split; [done |]. by rewrite Hresp.
Qed.

(** The loop over catalog entries, summarised. *)
Lemma catalog_loop_shape (namespace : string)
    (entries : list (string * query)) (fr : frame L) :
  (forall x, x ∈ entries -> x ∈ MQL_QUERY (cfg w)) ->
  exists evs,
    (for_each entries (pipeline_step w namespace) fr).2
    = Frame (trace fr ++ evs) (local fr) /\
    Forall (pipeline_event w namespace) evs /\
    (count_inserts evs <= count_list_calls evs)%nat /\
    (count_list_calls evs <= length entries)%nat /\
    ((for_each entries (pipeline_step w namespace) fr).1 = Ok tt ->
     count_list_calls evs = length entries) /\
    (forall e,
       (for_each entries (pipeline_step w namespace) fr).1 = Raise e ->
       sink_failure w e).
Proof.
  revert fr. induction entries as [|x entries IH]; intros fr Hsub.
  - exists []. cbn. rewrite app_nil_r. destruct fr.
    repeat split; by try constructor.
  - destruct (pipeline_step_shape namespace x fr)
      as (evs1 & Hfr1 & Hev1 & Hl1 & Hi1 & Hraise1);
      [apply Hsub; by left |].
    cbn [for_each]. unfold bind.
    destruct (pipeline_step w namespace x fr) as [[[]|e] fr1];
      cbn [fst snd] in *.
    + destruct (IH fr1) as (evs2 & Hfr2 & Hev2 & Hi2 & Hl2 & Hok2 & Hraise2);
        [intros y Hy; apply Hsub; by right |].
      exists (evs1 ++ evs2). rewrite Hfr2. subst fr1. cbn [trace local].
      rewrite count_inserts_app, count_list_calls_app, Hl1.
      split; [by rewrite app_assoc |]. split; [by apply Forall_app |].
      split; [lia |]. split; [cbn; lia |].
      split; [intros Hok; cbn; by rewrite (Hok2 Hok) | done].
    + exists evs1. rewrite Hl1.
      split; [done |]. split; [done |]. split; [lia |].
      split; [cbn; lia |]. split; [discriminate | done].
Qed.

Lemma run_pipeline_shape (namespace : string) (fr : frame L) :
  exists evs,
    (run_pipeline w namespace fr).2 = Frame (trace fr ++ evs) (local fr) /\
    Forall (pipeline_event w namespace) evs /\
    (count_inserts evs <= count_list_calls evs)%nat /\
    (count_list_calls evs <= length (MQL_QUERY (cfg w)))%nat /\
    ((run_pipeline w namespace fr).1 = Ok tt ->
     count_list_calls evs = length (MQL_QUERY (cfg w)) /\
     last evs = Some (EvLog INFO LogRunCompleted)) /\
    (forall e, (run_pipeline w namespace fr).1 = Raise e -> sink_failure w e).
Proof.
  destruct (catalog_loop_shape namespace (MQL_QUERY (cfg w)) fr)
    as (evs & Hfr & Hev & Hi & Hl & Hok & Hraise); [done |].
  unfold run_pipeline, bind.
  destruct (for_each (MQL_QUERY (cfg w)) (pipeline_step w namespace) fr)
    as [[[]|e] fr1]; cbn [fst snd] in *.
  - exists (evs ++ [EvLog INFO LogRunCompleted]).
    unfold logging, emit. subst fr1. cbn [fst snd trace local].
    rewrite count_inserts_app, count_list_calls_app.
    split; [by rewrite app_assoc |].
    split; [apply Forall_app; split; [done | events_ok] |].
    split; [cbn; lia |]. split; [cbn; lia |].
    split; [| discriminate].
    intros _. rewrite (Hok eq_refl). split; [cbn; lia | apply last_snoc].
  - exists evs. split; [done |]. split; [done |]. split; [done |].
    split; [done |]. split; [discriminate | done].
Qed.

Lemma run_namespaces_shape (nss : list string) (fr : frame L) :
  exists evs,
    (run_namespaces w nss fr).2 = Frame (trace fr ++ evs) (local fr) /\
    Forall (fun ev => exists ns, ns ∈ nss /\ pipeline_event w ns ev) evs /\
    (count_inserts evs <= count_list_calls evs)%nat /\
    (count_list_calls evs <= length nss * length (MQL_QUERY (cfg w)))%nat /\
    (forall e, (run_namespaces w nss fr).1 = Raise e -> sink_failure w e).
Proof.
  unfold run_namespaces. revert fr.
  induction nss as [|ns nss IH]; intros fr.
  - exists []. cbn. rewrite app_nil_r. destruct fr.
    repeat split; by try constructor.
  - destruct (run_pipeline_shape ns fr)
      as (evs1 & Hfr1 & Hev1 & Hi1 & Hl1 & _ & Hraise1).
    assert (Forall (fun ev => exists ns', ns' ∈ ns :: nss /\
                                           pipeline_event w ns' ev) evs1)
      as Hev1'.
    { eapply Forall_impl; [exact Hev1 |]. intros ev Hev. exists ns.
      split; [by left | done]. }
    cbn [for_each]. unfold bind.
    destruct (run_pipeline w ns fr) as [[[]|e] fr1]; cbn [fst snd] in *.
    + destruct (IH fr1) as (evs2 & Hfr2 & Hev2 & Hi2 & Hl2 & Hraise2).
      exists (evs1 ++ evs2). rewrite Hfr2. subst fr1. cbn [trace local].
      rewrite count_inserts_app, count_list_calls_app.
      split; [by rewrite app_assoc |]. split.
      { apply Forall_app. split; [done |].
        eapply Forall_impl; [exact Hev2 |]. intros ev (ns' & Hin & Hev).
        exists ns'. split; [by right | done]. }
      split; [lia |]. split; [cbn [length]; lia | done].
    + exists evs1. split; [done |]. split; [done |]. split; [done |].
      split; [cbn [length]; lia | done].
Qed.

(** Discovery, summarised. *)
Lemma get_namespaces_summary (fr : frame L) :
  exists out logs,
    get_namespaces w fr
    = (Ok out,
       Frame (trace fr ++ EvListTimeSeries (discovery_request w) :: logs)
         (local fr)) /\
    Forall (fun ev => is_fetch_log ev = true) logs /\
    NoDup out.
Proof.
  destruct (get_namespaces_run w fr) as (found & logs & Hrun & Hresp).
  exists (list_of_set w (list_to_set found)), logs.
  split; [exact Hrun |]. split.
  - destruct (list_time_series (env w) (trace fr) (discovery_request w))
      as [e|pg].
    + destruct Hresp as [_ ->]. repeat constructor.
      apply error_log_is_fetch_log.
    + destruct Hresp as [_ ->]. destruct (pager_error pg);
        repeat constructor; apply error_log_is_fetch_log.
  - unfold list_of_set. rewrite (listing_perm (hash_order w)).
    apply NoDup_elements.
Qed.

End RunShape.

Section DriverShape.

Variable w : world.

(** The driver, in terms of discovery and the loop over namespaces. *)
Lemma main_unfold (fr : frame unit) (out : list string) (fr1 : frame unit) :
  get_namespaces w fr = (Ok out, fr1) ->
  main w fr
  = match out with
    | [] => (Ok tt,
             Frame (trace fr1 ++ [EvLog ERROR LogNamespaceListEmpty])
               (local fr1))
    | _ :: _ => run_namespaces w out fr1
    end.
Proof.
  intros H. unfold main, bind. rewrite H. by destruct out.
Qed.

End DriverShape.

(** ** The run, as a user sees it *)

Section RunClaims.

Variable w : world.

(** X7. When discovery returns no namespace the driver logs that the list
    is empty and stops: its only backend call is the discovery query, and
    nothing is fetched or inserted. *)
Theorem empty_discovery_ends_job (fr : frame unit) :
  (get_namespaces w fr).1 = Ok [] ->
  exists logs,
    main w fr
    = (Ok tt,
       Frame (trace fr ++ EvListTimeSeries (discovery_request w)
                :: logs ++ [EvLog ERROR LogNamespaceListEmpty]) (local fr)) /\
    Forall (fun ev => is_fetch_log ev = true) logs.
Proof.
  intros Hempty.
  destruct (get_namespaces_summary w fr) as (out & logs & Hrun & Hlogs & _).
  rewrite Hrun in Hempty. injection Hempty as ->.
  exists logs. split; [| done].
  rewrite (main_unfold _ _ _ _ Hrun). cbn [trace local].
  by rewrite <- app_assoc.
Qed.

(** X8. When the discovery call itself fails the job ends normally after
    two error lines: the failure, then the empty namespace list. *)
Theorem discovery_outage_ends_job (fr : frame unit) (e : exn) :
  list_time_series (env w) (trace fr) (discovery_request w) = CallRaises e ->
  main w fr
  = (Ok tt,
     Frame (trace fr ++
              [EvListTimeSeries (discovery_request w);
               error_log ERROR e;
               EvLog ERROR LogNamespaceListEmpty]) (local fr)).
Proof.
  intros Hdown.
  destruct (get_namespaces_run w fr) as (found & logs & Hrun & Hresp).
  rewrite Hdown in Hresp. destruct Hresp as [-> ->].
  assert (list_of_set w (list_to_set []) = []) as Hnil.
  { apply Permutation_nil_r. unfold list_of_set.
    rewrite (listing_perm (hash_order w)). cbn [list_to_set].
    by rewrite elements_empty. }
  rewrite Hnil in Hrun.
  rewrite (main_unfold _ _ _ _ Hrun). cbn [trace local].
  by rewrite <- app_assoc.
Qed.

(** X9. Whatever the backends answer, the pipeline of a namespace only
    fetches catalog entries for that namespace, only inserts non-empty
    batches of rows of one catalog metric into the configured table, and
    never logs for another namespace. *)
Theorem run_pipeline_events_in_scope {L} (namespace : string) (fr : frame L) :
  exists evs,
    (run_pipeline w namespace fr).2 = Frame (trace fr ++ evs) (local fr) /\
    Forall (pipeline_event w namespace) evs.
Proof.
  destruct (run_pipeline_shape w namespace fr) as (evs & Hfr & Hev & _).
  by exists evs.
Qed.


(** X13. The driver works only on the namespaces discovery returned, each
    listed once: after discovery every event is the empty-list error line
    or an event of the pipeline of a discovered namespace, and the fetches
    number at most one per discovered namespace and catalog entry. *)
Theorem main_visits_only_discovered_namespaces (fr : frame unit) :
  exists nss fr1 evs,
    get_namespaces w fr = (Ok nss, fr1) /\
    NoDup nss /\
    (main w fr).2 = Frame (trace fr1 ++ evs) (local fr) /\
    Forall (fun ev => ev = EvLog ERROR LogNamespaceListEmpty \/
                      exists ns, ns ∈ nss /\ pipeline_event w ns ev) evs /\
    (count_list_calls evs <= length nss * length (MQL_QUERY (cfg w)))%nat.
Proof.
  destruct (get_namespaces_summary w fr) as (out & logs & Hrun & _ & Hnodup).
  eexists out, _. rewrite (main_unfold _ _ _ _ Hrun).
  destruct out as [|ns out].
  - exists [EvLog ERROR LogNamespaceListEmpty].
    split; [exact Hrun |]. split; [done |]. split; [done |].
    split; [repeat constructor; by left | cbn; lia].
  - destruct (run_namespaces_shape w (ns :: out)
                (Frame (trace fr ++ EvListTimeSeries (discovery_request w)
                          :: logs) (local fr)))
      as (evs & Hfr & Hev & _ & Hl & _).
    exists evs. split; [exact Hrun |]. split; [done |].
    split; [exact Hfr |]. split; [| done].
    eapply Forall_impl; [exact Hev |]. intros ev H. by right.
Qed.

(** X14. Every request the pipeline of a namespace sends is built from a
    catalog entry: its window ends at the one instant fixed at start-up
    and spans the entry's window, it names the project, asks for the full
    view and filters on this namespace. *)
Theorem run_pipeline_requests_share_window_end {L} (namespace : string)
    (fr : frame L) (req : list_request) :
  EvListTimeSeries req
    ∈ drop (length (trace fr)) (trace (run_pipeline w namespace fr).2) ->
  exists entry,
    entry ∈ MQL_QUERY (cfg w) /\
    filter req = fetch_filter entry.2 namespace /\
    end_seconds (interval req) = seconds (boot w) /\
    start_seconds (interval req) = (seconds (boot w) - window entry.2)%Z /\
    name req = project_name (cfg w) /\
    view req = FULL.
Proof.
  destruct (run_pipeline_shape w namespace fr) as (evs & Hfr & Hev & _).
  rewrite Hfr. cbn [trace]. rewrite drop_app_length. intros Hin.
  rewrite Forall_forall in Hev. apply Hev in Hin as (entry & Hentry & ->).
  by exists entry.
Qed.

End RunClaims.


(** ** The further scenarios, checked *)

Section CheckedMore.

Import Scenario Outage.

(** A series without "location" still gives a row, with an empty
    location. *)
Example unlabelled_series_row :
  location <$> (match build_row boot0 vpa_name unlabelled_series with
                | Ok r => Some r
                | Raise _ => None
                end) = Some EmptyString.
Proof. vm_compute. reflexivity. Qed.

(** X2 on the series with a point without start time. *)
Lemma build_row_raises_only_attribute_error_witness :
  build_row boot0 vpa_name untimed_series = Raise no_strftime /\
  (no_strftime = no_strftime /\ exists v, Untimed v ∈ points untimed_series).
Proof.
  assert (build_row boot0 vpa_name untimed_series = Raise no_strftime) as H
    by (vm_compute; reflexivity).
  exact (conj H
           (build_row_raises_only_attribute_error boot0 vpa_name
              untimed_series no_strftime H)).
Defined.

(** X3 on the answer good, untimed, good: one row comes back. *)
Lemma untimed_point_truncates_fetch_witness :
  (list_time_series (env world_truncated) (trace frame0)
     (fetch_request world_truncated descriptor "billing")
   = Returns {| pager_items := [billing_series; untimed_series;
                                billing_series];
                pager_error := None |} /\
   pager_items {| pager_items := [billing_series; untimed_series;
                                  billing_series];
                  pager_error := None |}
   = [billing_series] ++ untimed_series :: [billing_series] /\
   Forall2 (fun s r => build_row (boot world_truncated) vpa_name s = Ok r)
     [billing_series] [row_A] /\
   Untimed (Int64Value 3) ∈ points untimed_series) /\
  get_gke_metrics world_truncated vpa_name descriptor "billing" frame0
  = (Ok [row_A],
     Frame (trace frame0 ++
              [EvListTimeSeries
                 (fetch_request world_truncated descriptor "billing");
               EvLog INFO LogBuildingRow;
               EvLog INFO (LogUnexpectedError no_strftime)])
       (local frame0)).
Proof.
  assert (list_time_series (env world_truncated) (trace frame0)
            (fetch_request world_truncated descriptor "billing")
          = Returns {| pager_items := [billing_series; untimed_series;
                                       billing_series];
                       pager_error := None |}) as H1 by reflexivity.
  assert (pager_items {| pager_items := [billing_series; untimed_series;
                                         billing_series];
                         pager_error := None |}
          = [billing_series] ++ untimed_series :: [billing_series]) as H2
    by reflexivity.
  assert (Forall2
            (fun s r => build_row (boot world_truncated) vpa_name s = Ok r)
            [billing_series] [row_A]) as H3
    by (constructor; [vm_compute; reflexivity | constructor]).
  assert (Untimed (Int64Value 3) ∈ points untimed_series) as H4
    by (right; left).
  exact (conj (conj H1 (conj H2 (conj H3 H4)))
           (untimed_point_truncates_fetch world_truncated vpa_name descriptor
              "billing" frame0 _ [billing_series] [billing_series]
              untimed_series [row_A] (Int64Value 3) H1 H2 H3 H4)).
Defined.

(** X4 on scenario A. *)
Lemma fetched_rows_share_run_fields_witness :
  returned_rows
    (get_gke_metrics world_A vpa_name descriptor "billing" frame0)
  !! 0%nat = Some row_A /\
  (metric_name_ row_A = vpa_name /\
   run_date_ row_A = strftime_seconds (run_date (boot world_A)) /\
   exists pg s,
     list_time_series (env world_A) (trace frame0)
       (fetch_request world_A descriptor "billing") = Returns pg /\
     pager_items pg !! 0%nat = Some s /\
     project_id row_A
     = default EmptyString (resource_labels s !! "project_id") /\
     location row_A = default EmptyString (resource_labels s !! "location") /\
     cluster_name row_A
     = default EmptyString (resource_labels s !! "cluster_name") /\
     namespace_name row_A
     = default EmptyString (resource_labels s !! "namespace_name")).
Proof.
  assert (returned_rows
            (get_gke_metrics world_A vpa_name descriptor "billing" frame0)
          !! 0%nat = Some row_A) as H
    by (vm_compute; reflexivity).
  exact (conj H
           (fetched_rows_share_run_fields world_A vpa_name descriptor
              "billing" frame0 0 row_A H)).
Defined.

(** X5 on scenario A. *)
Lemma complete_fetch_one_row_per_series_witness :
  (list_time_series (env world_A) (trace frame0)
     (fetch_request world_A descriptor "billing")
   = Returns {| pager_items := [billing_series]; pager_error := None |} /\
   pager_error {| pager_items := [billing_series]; pager_error := None |}
   = None /\
   Forall all_timed
     (pager_items {| pager_items := [billing_series];
                     pager_error := None |})) /\
  (exists rows,
     get_gke_metrics world_A vpa_name descriptor "billing" frame0
     = (Ok rows,
        Frame (trace frame0 ++
                 [EvListTimeSeries (fetch_request world_A descriptor "billing");
                  EvLog INFO LogBuildingRow]) (local frame0)) /\
     length rows
     = length (pager_items {| pager_items := [billing_series];
                              pager_error := None |}) /\
     Forall2 (fun s r => build_row (boot world_A) vpa_name s = Ok r)
       (pager_items {| pager_items := [billing_series];
                       pager_error := None |}) rows).
Proof.
  assert (list_time_series (env world_A) (trace frame0)
            (fetch_request world_A descriptor "billing")
          = Returns {| pager_items := [billing_series];
                       pager_error := None |}) as H1 by reflexivity.
  assert (pager_error {| pager_items := [billing_series];
                         pager_error := None |} = None) as H2 by reflexivity.
  assert (Forall all_timed
            (pager_items {| pager_items := [billing_series];
                            pager_error := None |})) as H3.
  { constructor; [| constructor].
    constructor; [eexists; reflexivity |].
    constructor; [eexists; reflexivity | constructor]. }
  exact (conj (conj H1 (conj H2 H3))
           (complete_fetch_one_row_per_series world_A vpa_name descriptor
              "billing" frame0 _ H1 H2 H3)).
Defined.

(** X7 on the backend that has no series at the start. *)
Lemma empty_discovery_ends_job_witness :
  (get_namespaces world_sparse frame0).1 = Ok [] /\
  (exists logs,
     main world_sparse frame0
     = (Ok tt,
        Frame (trace frame0 ++ EvListTimeSeries (discovery_request world_sparse)
                 :: logs ++ [EvLog ERROR LogNamespaceListEmpty])
          (local frame0)) /\
     Forall (fun ev => is_fetch_log ev = true) logs).
Proof.
  assert ((get_namespaces world_sparse frame0).1 = Ok []) as H
    by (vm_compute; reflexivity).
  exact (conj H (empty_discovery_ends_job world_sparse frame0 H)).
Defined.

(** X8 on the backend that is down. *)
Lemma discovery_outage_ends_job_witness :
  list_time_series (env world_down) (trace frame0)
    (discovery_request world_down) = CallRaises quota /\
  main world_down frame0
  = (Ok tt,
     Frame (trace frame0 ++
              [EvListTimeSeries (discovery_request world_down);
               error_log ERROR quota;
               EvLog ERROR LogNamespaceListEmpty]) (local frame0)).
Proof.
  assert (list_time_series (env world_down) (trace frame0)
            (discovery_request world_down) = CallRaises quota) as H
    by reflexivity.
  exact (conj H (discovery_outage_ends_job world_down frame0 quota H)).
Defined.

(** X14 on scenario A: the one request of the pipeline of "billing". *)
Lemma run_pipeline_requests_share_window_end_witness :
  EvListTimeSeries (fetch_request world_A descriptor "billing")
    ∈ drop (length (trace frame0))
        (trace (run_pipeline world_A "billing" frame0).2) /\
  (exists entry,
     entry ∈ MQL_QUERY (cfg world_A) /\
     filter (fetch_request world_A descriptor "billing")
     = fetch_filter entry.2 "billing" /\
     end_seconds (interval (fetch_request world_A descriptor "billing"))
     = seconds (boot world_A) /\
     start_seconds (interval (fetch_request world_A descriptor "billing"))
     = (seconds (boot world_A) - window entry.2)%Z /\
     name (fetch_request world_A descriptor "billing")
     = project_name (cfg world_A) /\
     view (fetch_request world_A descriptor "billing") = FULL).
Proof.
  assert (EvListTimeSeries (fetch_request world_A descriptor "billing")
            ∈ drop (length (trace frame0))
                (trace (run_pipeline world_A "billing" frame0).2)) as H
    by (vm_compute; right; left).
  exact (conj H
           (run_pipeline_requests_share_window_end world_A "billing" frame0
              (fetch_request world_A descriptor "billing") H)).
Defined.

End CheckedMore.
